(** * The tool-calling orchestration core of ollama-cli-agent

  A shallow embedding of [src/core/agent.py], [src/tools/__init__.py] and
  [src/core/exceptions.py], and the properties of the conversation log, the
  tool registry and the request/dispatch/continue loop stated over it.

  Conventions of the embedding.
  - A Python [str] is a [string]; [int] is [Z]; [None]-able values are
    [option]s; a [dict] that is iterated is an insertion-ordered
    association list ([Py.dict]).
  - Code that can raise returns a [result]; state that survives a raise is
    threaded explicitly (the monad [Agent.M]).
  - Exceptions are the instances of Python's [Exception]; the interpreter
    signals that derive from [BaseException] only ([KeyboardInterrupt],
    [SystemExit]) are not errors of a turn and are outside the model.
  - Logging and console output have no effect on the modelled state and
    are left out. *)

From stdpp Require Import base list strings gmap pretty sorting.
From Stdlib Require Import ZArith Lia Ascii.

(** ** Python primitives the sources rely on *)

Module Py.

(** [c.lower()] for one character; only A-Z have a lower-case form in the
    8-bit alphabet of [ascii]. *)
Definition lower_ascii (c : ascii) : ascii :=
  let n := nat_of_ascii c in
  if ((65 <=? n)%nat && (n <=? 90)%nat)%bool then ascii_of_nat (n + 32) else c.

(** [s.lower()]. *)
Fixpoint lower (s : string) : string :=
  match s with
  | EmptyString => EmptyString
  | String c s' => String (lower_ascii c) (lower s')
  end.

(** [needle in hay] on strings: [needle] occurs as a contiguous substring. *)
Fixpoint contains (needle hay : string) : bool :=
  (String.prefix needle hay
   || match hay with
      | EmptyString => false
      | String _ hay' => contains needle hay'
      end)%bool.

(** [any(word in s for word in words)]. *)
Definition any_in (words : list string) (s : string) : bool :=
  existsb (fun word => contains word s) words.

(** [x in xs] for a list of strings. *)
Definition mem (x : string) (xs : list string) : bool :=
  existsb (String.eqb x) xs.

(** Truthiness of a string: [bool(s)]. *)
Definition truthy (s : string) : bool :=
  match s with EmptyString => false | _ => true end.

(** [l[start:]]: a negative [start] counts from the end and is clamped at
    the front; a non-negative one is clamped at the end. In particular
    [l[-0:]] is [l[0:]], the whole list. *)
Definition slice_from {A} (start : Z) (l : list A) : list A :=
  let n := Z.of_nat (length l) in
  let i := if (start <? 0)%Z then Z.max (n + start) 0 else Z.min start n in
  drop (Z.to_nat i) l.

(** The JSON scalars that travel as tool arguments and tool results. *)
Inductive value :=
| VNone
| VBool (b : bool)
| VInt (z : Z)
| VStr (s : string).

(** [str(v)]. *)
Definition str (v : value) : string :=
  match v with
  | VNone => "None"
  | VBool true => "True"
  | VBool false => "False"
  | VInt z => pretty z
  | VStr s => s
  end.

(** An insertion-ordered [dict] with string keys. *)
Definition dict (V : Type) := list (string * V).

Fixpoint dict_get {V} (k : string) (d : dict V) : option V :=
  match d with
  | [] => None
  | (k', v) :: d' => if String.eqb k k' then Some v else dict_get k d'
  end.

(** [k in d]. *)
Definition dict_mem {V} (k : string) (d : dict V) : bool :=
  match dict_get k d with Some _ => true | None => false end.

(** [d[k] = v]: an existing key keeps its position, a new key goes last. *)
Fixpoint dict_set {V} (k : string) (v : V) (d : dict V) : dict V :=
  match d with
  | [] => [(k, v)]
  | (k', v') :: d' =>
      if String.eqb k k' then (k, v) :: d' else (k', v') :: dict_set k v d'
  end.

Definition dict_keys {V} (d : dict V) : list string := map fst d.
Definition dict_values {V} (d : dict V) : list V := map snd d.

(** Keyword arguments of a call, [**kwargs]. *)
Definition kwargs := dict value.

(** [sep.join(parts)]. *)
Fixpoint join (sep : string) (parts : list string) : string :=
  match parts with
  | [] => EmptyString
  | [part] => part
  | part :: rest => part +:+ sep +:+ join sep rest
  end.

(** [c.upper()] for one character of the 8-bit alphabet. *)
Definition upper_ascii (c : ascii) : ascii :=
  let n := nat_of_ascii c in
  if ((97 <=? n)%nat && (n <=? 122)%nat)%bool then ascii_of_nat (n - 32) else c.

(** A cased character: a letter. *)
Definition is_cased (c : ascii) : bool :=
  let n := nat_of_ascii c in
  (((65 <=? n)%nat && (n <=? 90)%nat) || ((97 <=? n)%nat && (n <=? 122)%nat))%bool.

(** [s.title()]: a letter that follows a letter is lower-cased, any other
    letter is upper-cased. [after_cased] tells whether the character before
    was a letter. *)
Fixpoint title_from (after_cased : bool) (s : string) : string :=
  match s with
  | EmptyString => EmptyString
  | String c s' =>
      String (if after_cased then lower_ascii c else upper_ascii c)
             (title_from (is_cased c) s')
  end.

Definition title (s : string) : string := title_from false s.

(** [s.replace(old, new)] for one-character [old] and [new]. *)
Fixpoint replace_char (old new : ascii) (s : string) : string :=
  match s with
  | EmptyString => EmptyString
  | String c s' =>
      String (if Ascii.eqb c old then new else c) (replace_char old new s')
  end.

(** [sorted(items, key=key)] for string keys: a stable sort by code point
    order, here by insertion. *)
Fixpoint insert_by {A} (key : A -> string) (x : A) (l : list A) : list A :=
  match l with
  | [] => [x]
  | y :: l' =>
      if String.leb (key x) (key y) then x :: y :: l'
      else y :: insert_by key x l'
  end.

Definition sorted_by {A} (key : A -> string) (l : list A) : list A :=
  foldr (insert_by key) [] l.

(** [sorted(names)]. *)
Definition sorted (names : list string) : list string := sorted_by id names.

(** The order [sorted_by] sorts into. *)
Definition key_le {A} (key : A -> string) (x y : A) : Prop :=
  String.leb (key x) (key y) = true.

End Py.

(** ** [src/llm/client.py]: the data the client hands to the agent *)

Module Llm.

(** A tool-call request, [{id, function: {name, arguments}}]; every key may
    be missing, which is what [.get] in [_execute_tools] allows for. *)
Record FunctionData := {
  fd_name : option string;
  fd_arguments : option Py.kwargs
}.

Record ToolCall := {
  tc_id : option string;
  tc_function : option FunctionData
}.

Record ChatMessage := {
  cm_role : string;
  cm_content : string;
  cm_tool_calls : option (list ToolCall);
  cm_tool_name : option string
}.

Record LLMResponse := {
  message : ChatMessage;
  timing : Z;
  model : string
}.

(** [if response.message.tool_calls:] holds for a non-empty list only. *)
Definition has_tool_calls (r : LLMResponse) : option (list ToolCall) :=
  match cm_tool_calls (message r) with
  | Some (c :: cs) => Some (c :: cs)
  | _ => None
  end.

End Llm.

(** ** [ConversationManager] *)

Module Conversation.
Import Llm.

(** One history entry. The two optional fields are the only extra keys
    the agent ever passes to [add_message]. *)
Record message := {
  role : string;
  content : string;
  timestamp : string;
  tool_calls : option (list ToolCall);
  tool_name : option string
}.

(** An entry of the list sent to the LLM. *)
Record context_message := {
  c_role : string;
  c_content : string;
  c_tool_calls : option (list ToolCall);
  c_tool_name : option string
}.

Definition is_system (msg : message) : bool := String.eqb (role msg) "system".

(** Lines 95-102 of [add_message]: append, then trim when the log is
    longer than twice [max_history]. *)
Definition append_and_trim (max_history : Z) (msg : message)
    (history : list message) : list message :=
  let history := history ++ [msg] in
  if (max_history * 2 <? Z.of_nat (length history))%Z then
    let system_msgs := List.filter is_system history in
    let recent_msgs := Py.slice_from (- max_history) history in
    system_msgs ++ recent_msgs
  else history.

(** [add_message(role, content, tool_calls=..., tool_name=...)]; [now] is
    the clock reading [datetime.now().isoformat()]. A keyword whose value
    is [None] is not stored, which the [option] fields express. *)
Definition add_message (max_history : Z) (now : string) (role content : string)
    (tool_calls : option (list ToolCall)) (tool_name : option string)
    (history : list message) : list message :=
  append_and_trim max_history
    {| role := role; content := content; timestamp := now;
       tool_calls := tool_calls; tool_name := tool_name |} history.

(** [role in ["user", "assistant", "tool"]]. *)
Definition in_context_roles (r : string) : bool :=
  Py.mem r ["user"; "assistant"; "tool"].

(** The body of the loop of [get_context_messages] for one entry. *)
Definition context_of (msg : message) : option context_message :=
  if in_context_roles (role msg) then
    Some {| c_role := role msg; c_content := content msg;
            c_tool_calls := tool_calls msg; c_tool_name := tool_name msg |}
  else None.

Definition get_context_messages (max_history : Z) (system_prompt : string)
    (history : list message) : list context_message :=
  {| c_role := "system"; c_content := system_prompt;
     c_tool_calls := None; c_tool_name := None |}
  :: omap context_of (Py.slice_from (- max_history) history).

(** Appending a batch of ready-made entries one after the other. *)
Definition append_all (max_history : Z) (msgs : list message)
    (history : list message) : list message :=
  foldl (fun h m => append_and_trim max_history m h) history msgs.

(** The length of the log after [n] appends to an empty log that holds no
    system entry: the recurrence the trim rule induces. *)
Fixpoint retained (max_history n : nat) : nat :=
  match n with
  | O => O
  | S n' =>
      let k := S (retained max_history n') in
      if (max_history * 2 <? k)%nat then max_history else k
  end.

(** The claim's reading of the context, in the spec's words: the fresh
    prompt, then the user, assistant and tool entries among the last
    [max_history] entries. *)
Definition last_n {A} (n : nat) (l : list A) : list A :=
  drop (length l - n) l.


End Conversation.

(** ** [src/core/exceptions.py] *)

Module Exceptions.

(** The exception classes that occur in a turn. [OtherException] stands
    for any further subclass of [Exception] a tool or a stub may raise. *)
Inductive exn_class :=
| Exception
| TypeError
| RecursionError
| OtherException (name : string)
| OllamaCliError
| ConfigurationError
| LLMError
| LLMConnectionError
| LLMTimeoutError
| LLMResponseError
| ToolError
| ToolNotFoundError
| ToolExecutionError
| ToolTimeoutError
| ToolValidationError
| ConversationError
| HistoryError
| SessionError.

#[global] Instance exn_class_eq_dec : EqDecision exn_class.
Proof. solve_decision. Defined.

(** The proper ancestors of a class, nearest first. *)
Definition bases (c : exn_class) : list exn_class :=
  match c with
  | Exception => []
  | TypeError | RecursionError | OtherException _ | OllamaCliError => [Exception]
  | ConfigurationError | LLMError | ToolError | ConversationError =>
      [OllamaCliError; Exception]
  | LLMConnectionError | LLMTimeoutError | LLMResponseError =>
      [LLMError; OllamaCliError; Exception]
  | ToolNotFoundError | ToolExecutionError | ToolTimeoutError
  | ToolValidationError =>
      [ToolError; OllamaCliError; Exception]
  | HistoryError | SessionError =>
      [ConversationError; OllamaCliError; Exception]
  end.

(** A raised exception: its class and [str(e)]. *)
Record exn := { cls : exn_class; msg : string }.

(** [isinstance(e, c)], the test an [except c] clause makes. *)
Definition isinstance (e : exn) (c : exn_class) : bool :=
  bool_decide (c ∈ cls e :: bases (cls e)).

Inductive result (A : Type) :=
| Ok (a : A)
| Raise (e : exn).
Arguments Ok {A} a.
Arguments Raise {A} e.

(** The constructors of the classes that build their own message. *)
Definition mkLLMConnectionError (url : string) (original_error : option string) : exn :=
  {| cls := LLMConnectionError;
     msg := "Cannot connect to LLM at " +:+ url +:+ ": "
            +:+ default "None" original_error |}.

Definition mkLLMTimeoutError (timeout : Z) : exn :=
  {| cls := LLMTimeoutError;
     msg := "LLM request timed out after " +:+ pretty timeout +:+ " seconds" |}.

Definition mkLLMResponseError (message : string) : exn :=
  {| cls := LLMResponseError; msg := message |}.

Definition mkToolError (message : string) : exn :=
  {| cls := ToolError; msg := message |}.

Definition mkToolNotFoundError (tool_name : string) : exn :=
  {| cls := ToolNotFoundError; msg := "Tool '" +:+ tool_name +:+ "' not found" |}.

Definition mkToolValidationError (tool_name validation_message : string) : exn :=
  {| cls := ToolValidationError;
     msg := "Tool '" +:+ tool_name +:+ "' validation failed: "
            +:+ validation_message |}.

(** What the interpreter raises when the call stack is exhausted. *)
Definition mkRecursionError : exn :=
  {| cls := RecursionError; msg := "maximum recursion depth exceeded" |}.

End Exceptions.

(** ** [src/tools/__init__.py]: the tool registry *)

Module Tools.
Import Exceptions.

(** What [inspect.signature] reports for one parameter. *)
Inductive param_kind :=
| POSITIONAL_ONLY
| POSITIONAL_OR_KEYWORD
| VAR_POSITIONAL
| KEYWORD_ONLY
| VAR_KEYWORD.

Inductive annotation :=
| AnnInt
| AnnFloat
| AnnBool
| AnnList
| AnnDict
| AnnStr
| AnnOther (name : string).

(** [annotation] and [default] are [None] for [inspect.Parameter.empty]. *)
Record Param := {
  p_name : string;
  p_kind : param_kind;
  p_annotation : option annotation;
  p_default : option Py.value
}.

(** A callable: its [__name__], [__doc__], signature, and what a call with
    keyword arguments does (argument binding failures are the [TypeError]s
    it raises). *)
Record Function := {
  f_name : string;
  f_doc : option string;
  f_signature : list Param;
  f_call : Py.kwargs -> result Py.value
}.

Record ParamSchema := {
  ps_type : string;
  ps_description : option string
}.

Record Schema := {
  s_type : string;
  s_properties : Py.dict ParamSchema;
  s_required : list string
}.

Record ToolInfo := {
  name : string;
  function : Function;
  description : string;
  category : string;
  schema : Schema
}.

Record ToolRegistry := {
  _tools : Py.dict Function;
  _tool_info : Py.dict ToolInfo
}.

(** [ToolRegistry()]. *)
Definition empty_registry : ToolRegistry :=
  {| _tools := []; _tool_info := [] |}.

Definition _auto_categorize (name : string) : string :=
  let name_lower := Py.lower name in
  if Py.contains "generate" name_lower then "generation"
  else if Py.any_in ["save"; "write"; "store"] name_lower then "storage"
  else if Py.any_in ["search"; "find"; "query"] name_lower then "search"
  else if Py.any_in ["read"; "list"; "get"; "fetch"] name_lower then "retrieval"
  else if Py.any_in ["email"; "send"; "message"] name_lower then "communication"
  else if Py.contains "_and_" name_lower then "combined"
  else if Py.any_in ["calculate"; "math"; "compute"] name_lower then "calculation"
  else if Py.any_in ["password"; "encrypt"; "hash"] name_lower then "security"
  else "utility".

(** [s.split(sep)] for a one-character separator. *)
Fixpoint split_on (sep : ascii) (s : string) : list string :=
  match s with
  | EmptyString => [EmptyString]
  | String c s' =>
      if Ascii.eqb c sep then EmptyString :: split_on sep s'
      else match split_on sep s' with
           | [] => [String c EmptyString]
           | w :: ws => String c w :: ws
           end
  end.

(** [line.split(':', 1)[1]] for a line that holds a colon. *)
Fixpoint after_colon (line : string) : string :=
  match line with
  | EmptyString => EmptyString
  | String c line' => if Ascii.eqb c ":" then line' else after_colon line'
  end.

Definition is_space (c : ascii) : bool :=
  let n := nat_of_ascii c in
  (((9 <=? n)%nat && (n <=? 13)%nat) || ((28 <=? n)%nat && (n <=? 32)%nat))%bool.

Fixpoint lstrip (s : string) : string :=
  match s with
  | EmptyString => EmptyString
  | String c s' => if is_space c then lstrip s' else s
  end.

(** [s.strip()]. *)
Definition strip (s : string) : string :=
  String.rev (lstrip (String.rev (lstrip s))).

(** The inner loop over the docstring lines: the first line that mentions
    the parameter and holds a colon decides, and ends the search. *)
Fixpoint doc_description (param_name : string) (doc_lines : list string)
    : option string :=
  match doc_lines with
  | [] => None
  | line :: rest =>
      if (Py.contains param_name line && Py.contains ":" line)%bool then
        let desc := strip (after_colon line) in
        if Py.truthy desc then Some desc else None
      else doc_description param_name rest
  end.

(** The schema type chosen for an annotation. *)
Definition annotation_type (a : option annotation) : string :=
  match a with
  | Some AnnInt => "integer"
  | Some AnnFloat => "number"
  | Some AnnBool => "boolean"
  | Some AnnList => "array"
  | Some AnnDict => "object"
  | _ => "string"
  end.

Definition is_variadic (k : param_kind) : bool :=
  match k with
  | VAR_POSITIONAL | VAR_KEYWORD => true
  | _ => false
  end.

(** The parameters that become properties, and those listed as required. *)
Definition is_property (p : Param) : bool := negb (is_variadic (p_kind p)).

Definition is_required (p : Param) : bool :=
  (is_property p && match p_default p with None => true | Some _ => false end)%bool.

Definition param_schema_of (function : Function) (param : Param) : ParamSchema :=
  {| ps_type := annotation_type (p_annotation param);
     ps_description :=
       match f_doc function with
       | Some doc =>
           if Py.truthy doc then
             doc_description (p_name param) (split_on "010" doc)
           else None
       | None => None
       end |}.

(** The loop of [_auto_generate_schema] over [sig.parameters]. *)
Fixpoint schema_loop (function : Function) (params : list Param)
    (properties : Py.dict ParamSchema) (required : list string)
    : Py.dict ParamSchema * list string :=
  match params with
  | [] => (properties, required)
  | param :: rest =>
      if is_variadic (p_kind param) then
        schema_loop function rest properties required
      else
        schema_loop function rest
          (Py.dict_set (p_name param) (param_schema_of function param) properties)
          (match p_default param with
           | None => required ++ [p_name param]
           | Some _ => required
           end)
  end.

Definition _auto_generate_schema (function : Function) : Schema :=
  let '(properties, required) :=
    schema_loop function (f_signature function) [] [] in
  {| s_type := "object"; s_properties := properties; s_required := required |}.

Definition register_tool (name : string) (function : Function)
    (description category : option string) (schema : option Schema)
    (self : ToolRegistry) : ToolRegistry :=
  let description :=
    match description with
    | Some d => d
    | None =>
        match f_doc function with
        | Some doc => if Py.truthy doc then doc else name +:+ "()"
        | None => name +:+ "()"
        end
    end in
  let category :=
    match category with
    | Some c => c
    | None => _auto_categorize name
    end in
  let schema :=
    match schema with
    | Some s => s
    | None => _auto_generate_schema function
    end in
  {| _tools := Py.dict_set name function (_tools self);
     _tool_info :=
       Py.dict_set name
         {| name := name; function := function; description := description;
            category := category; schema := schema |}
         (_tool_info self) |}.

Definition get_tool (self : ToolRegistry) (name : string) : result Function :=
  match Py.dict_get name (_tools self) with
  | None => Raise (mkToolNotFoundError name)
  | Some f => Ok f
  end.

(** The [try] block of [execute_tool]: a [TypeError] of the call becomes
    [ToolValidationError], any other exception a plain [ToolError]. *)
Definition guarded_call (name : string) (f : Function) (kwargs : Py.kwargs)
    : result Py.value :=
  match f_call f kwargs with
  | Ok result => Ok result
  | Raise e =>
      if isinstance e TypeError then
        Raise (mkToolValidationError name (msg e))
      else if isinstance e Exception then
        Raise (mkToolError ("Tool '" +:+ name +:+ "' execution failed: " +:+ msg e))
      else Raise e
  end.

(** [execute_tool]: an unknown name raises [ToolNotFoundError]. *)
Definition execute_tool (self : ToolRegistry) (name : string)
    (kwargs : Py.kwargs) : result Py.value :=
  match Py.dict_get name (_tools self) with
  | None => Raise (mkToolNotFoundError name)
  | Some f => guarded_call name f kwargs
  end.

Definition list_tools (self : ToolRegistry) : list string :=
  Py.dict_keys (_tools self).

Definition get_tools_by_category (self : ToolRegistry) : Py.dict (list ToolInfo) :=
  foldl (fun categories tool_info =>
           Py.dict_set (category tool_info)
             (default [] (Py.dict_get (category tool_info) categories)
              ++ [tool_info])
             categories)
        [] (Py.dict_values (_tool_info self)).

(** One entry of the payload offered to the LLM:
    [{type: "function", function: {name, description, parameters}}]. *)
Record ToolDef := {
  td_type : string;
  td_name : string;
  td_description : string;
  td_parameters : Schema
}.

Definition get_tools_schema (self : ToolRegistry) : list ToolDef :=
  map (fun tool_info =>
         {| td_type := "function"; td_name := name tool_info;
            td_description := description tool_info;
            td_parameters := schema tool_info |})
      (Py.dict_values (_tool_info self)).

(** One call of [register_tool], and a registry built by a sequence of
    them from [ToolRegistry()]. *)
Record Registration := {
  r_name : string;
  r_function : Function;
  r_description : option string;
  r_category : option string;
  r_schema : option Schema
}.

Definition register (self : ToolRegistry) (r : Registration) : ToolRegistry :=
  register_tool (r_name r) (r_function r) (r_description r) (r_category r)
    (r_schema r) self.

Definition register_all (rs : list Registration) : ToolRegistry :=
  foldl register empty_registry rs.

(** [get_tool_descriptions]: the dict comprehension over
    [self._tool_info.items()]. *)
Definition get_tool_descriptions (self : ToolRegistry) : Py.dict string :=
  foldl (fun d '(n, info) => Py.dict_set n (description info) d) []
        (_tool_info self).

(** The decorator [tool]: registers [f] under its own name and hands [f]
    back unchanged. *)
Definition tool (f : Function) (description category : option string)
    (schema : option Schema) (registry : ToolRegistry)
    : Function * ToolRegistry :=
  (f, register_tool (f_name f) f description category schema registry).

(** [get_categorized_tools]: names and descriptions by category. *)
Definition get_categorized_tools (self : ToolRegistry)
    : Py.dict (list (string * string)) :=
  foldl (fun result '(category, tools) =>
           Py.dict_set category
             (map (fun tool => (name tool, description tool)) tools) result)
        [] (get_tools_by_category self).

(** One line of [generate_tool_selection_strategy] for a category that is
    present. *)
Definition strategy_line (categories : Py.dict (list (string * string)))
    (category lead : string) : list string :=
  match Py.dict_get category categories with
  | Some tools => [lead +:+ Py.join ", " (map fst tools)]
  | None => []
  end.

Definition generate_tool_selection_strategy (self : ToolRegistry) : string :=
  let categories := get_categorized_tools self in
  let strategy_parts :=
    strategy_line categories "generation" "- For content generation only: "
    ++ strategy_line categories "storage" "- For saving/writing content: "
    ++ match Py.dict_get "combined" categories with
       | Some tools =>
           [ "- For combined operations (generate + save, search + save, etc.): "
             +:+ Py.join ", " (map fst tools);
             "- **Prefer combined tools when user wants multiple operations** - they are more reliable" ]
       | None => []
       end
    ++ strategy_line categories "search" "- For searching: "
    ++ strategy_line categories "communication"
         "- For communication (email, messaging): " in
  Py.join (String "010" EmptyString) strategy_parts.

(** The categories [generate_tool_selection_strategy] has a line for. *)
Definition strategy_categories : list string :=
  [ "generation"; "storage"; "combined"; "search"; "communication" ].

(** The step of the loop of [get_tools_by_category], lines 167-170. *)
Definition group_step (categories : Py.dict (list ToolInfo)) (tool_info : ToolInfo)
    : Py.dict (list ToolInfo) :=
  Py.dict_set (category tool_info)
    (default [] (Py.dict_get (category tool_info) categories) ++ [tool_info])
    categories.

Definition in_category (c : string) (tool_info : ToolInfo) : bool :=
  String.eqb (category tool_info) c.



(** The names of a sequence in the order of their first occurrence. *)
Definition first_seen (names : list string) : list string :=
  foldl (fun seen n => if Py.mem n seen then seen else seen ++ [n]) [] names.

(** The nine categories [_auto_categorize] can answer with. *)
Definition taxonomy : list string :=
  [ "generation"; "storage"; "search"; "retrieval"; "communication";
    "combined"; "calculation"; "security"; "utility" ].

(** The invariant that ties the dispatch map to the metadata map: same
    keys in the same order, every record filed under its own name, and the
    same callable on both sides. *)
Definition registry_invariant (self : ToolRegistry) : Prop :=
  Py.dict_keys (_tools self) = Py.dict_keys (_tool_info self)
  /\ map name (Py.dict_values (_tool_info self)) = Py.dict_keys (_tool_info self)
  /\ forall n, Py.dict_get n (_tools self)
               = function <$> Py.dict_get n (_tool_info self).

End Tools.

(** ** [src/llm/client.py]: [OllamaClient.chat] *)

Module Client.
Import Exceptions Llm Conversation Tools.

(** The part of the configuration the client reads, with [self.chat_url]
    as computed by the constructor. *)
Record Config := {
  chat_url : string;
  model : string;
  timeout : Z
}.

(** What [self.session.post], [raise_for_status] and [response.json] can
    come to. [ConnectTimeout] derives from both [ConnectionError] and
    [Timeout] in [requests.exceptions]; [ReadTimeout] from [Timeout] only. *)
Inductive transport_error :=
| ConnectionError
| ConnectTimeout
| ReadTimeout
| HTTPError (status_code : Z) (text : string)
| OtherError.

Definition is_connection_error (k : transport_error) : bool :=
  match k with ConnectionError | ConnectTimeout => true | _ => false end.

Definition is_timeout (k : transport_error) : bool :=
  match k with ConnectTimeout | ReadTimeout => true | _ => false end.

(** The [message] object of a decoded response; every key may be absent. *)
Record MessageData := {
  md_role : option string;
  md_content : option string;
  md_tool_calls : option (list ToolCall);
  md_tool_name : option string
}.

Inductive transport_result :=
| Failed (kind : transport_error) (text : string)
| Decoded (message : option MessageData) (elapsed : Z).

(** The request body; [tools] is set for a non-empty schema only. *)
Record Payload := {
  p_model : string;
  p_messages : list context_message;
  p_stream : bool;
  p_tools : option (list ToolDef)
}.

Definition payload_of (config : Config) (messages : list context_message)
    (tools : option (list ToolDef)) : Payload :=
  {| p_model := model config; p_messages := messages; p_stream := false;
     p_tools := match tools with
                | Some (t :: ts) => Some (t :: ts)
                | _ => None
                end |}.

(** The [try] block of [chat]: the request and the checks on its answer. *)
Definition chat_try (config : Config) (post : Payload -> transport_result)
    (messages : list context_message) (tools : option (list ToolDef))
    : transport_error * string + result LLMResponse :=
  match post (payload_of config messages tools) with
  | Failed kind text => inl (kind, text)
  | Decoded None _ =>
      inr (Raise (mkLLMResponseError "Invalid response: missing 'message' field"))
  | Decoded (Some message_data) elapsed =>
      match md_content message_data with
      | None =>
          inr (Raise (mkLLMResponseError
                        "Invalid response: missing 'content' in message"))
      | Some content =>
          inr (Ok {| Llm.message :=
                       {| cm_role := default "assistant" (md_role message_data);
                          cm_content := content;
                          cm_tool_calls := md_tool_calls message_data;
                          cm_tool_name := md_tool_name message_data |};
                     timing := elapsed;
                     Llm.model := model config |})
      end
  end.

(** [chat]: the [except] clauses in their order. An [LLMResponseError] of
    the [try] block itself meets the last clause and is raised again with
    "Unexpected error: " in front of its text. *)
Definition chat (config : Config) (post : Payload -> transport_result)
    (messages : list context_message) (tools : option (list ToolDef))
    : result LLMResponse :=
  match chat_try config post messages tools with
  | inr (Ok response) => Ok response
  | inr (Raise e) => Raise (mkLLMResponseError ("Unexpected error: " +:+ msg e))
  | inl (kind, text) =>
      if is_connection_error kind then
        Raise (mkLLMConnectionError (chat_url config) (Some text))
      else if is_timeout kind then Raise (mkLLMTimeoutError (timeout config))
      else match kind with
           | HTTPError status_code body =>
               Raise (mkLLMResponseError
                        ("HTTP " +:+ pretty status_code
                         +:+ (if Py.truthy body then ": " +:+ body else "")))
           | _ => Raise (mkLLMResponseError ("Unexpected error: " +:+ text))
           end
  end.

End Client.

(** ** [ChatAgent]: one user turn *)

Module Agent.
Import Exceptions Llm Conversation Tools.

(** What a turn runs against: the configuration, the registry, the prompt
    builder (which never raises: it falls back to a fixed prompt), the LLM
    client as a function of the number of requests made before and of the
    request, the clock, and the depth at which the interpreter gives up a
    recursion with [RecursionError]. *)
Record Env := {
  max_history : Z;
  registry : ToolRegistry;
  build_system_prompt : ToolRegistry -> string;
  chat : nat -> list context_message -> option (list ToolDef) -> result LLMResponse;
  now : nat -> string;
  recursion_limit : nat
}.

(** The conversation log, the number of clock readings taken, and three
    records of what happened: the requests sent to the LLM client with the
    tools argument of each, the calls of [execute_tool], and the entries
    handed to [add_message]. *)
Record State := {
  history : list message;
  clock : nat;
  chat_calls : list (list context_message * option (list ToolDef));
  executed : list (string * Py.kwargs);
  appended : list message
}.

(** Computations that change the state and may raise; what was changed
    before a raise stays changed. *)
Definition M (A : Type) : Type := State -> result A * State.

Definition ret {A} (a : A) : M A := fun s => (Ok a, s).

Definition raise {A} (e : exn) : M A := fun s => (Raise e, s).

Definition bind {A B} (m : M A) (k : A -> M B) : M B :=
  fun s =>
    match m s with
    | (Ok a, s') => k a s'
    | (Raise e, s') => (Raise e, s')
    end.

Notation "'let*' x ':=' m 'in' k" := (bind m (fun x => k))
  (at level 10, x name, m at level 100, k at level 200).

(** [try: body] followed by [except c as e: handler] clauses; the first
    clause whose class the exception is an instance of handles it, and an
    exception no clause matches goes on. *)
Definition try_except {A} (body : M A)
    (clauses : list (exn_class * (exn -> M A))) : M A :=
  fun s =>
    match body s with
    | (Ok a, s') => (Ok a, s')
    | (Raise e, s') =>
        match List.find (fun c => isinstance e (fst c)) clauses with
        | Some (_, handler) => handler e s'
        | None => (Raise e, s')
        end
    end.

(** The state after [self.conversation.add_message(role, content, ...)]:
    the clock is read once, the log is appended to and trimmed. *)
Definition with_message (env : Env) (role content : string)
    (tool_calls : option (list ToolCall)) (tool_name : option string)
    (s : State) : State :=
  let timestamp := now env (clock s) in
  {| history := add_message (max_history env) timestamp role content
                  tool_calls tool_name (history s);
     clock := S (clock s);
     chat_calls := chat_calls s;
     executed := executed s;
     appended := appended s
                 ++ [ {| Conversation.role := role;
                         Conversation.content := content;
                         Conversation.timestamp := timestamp;
                         Conversation.tool_calls := tool_calls;
                         Conversation.tool_name := tool_name |} ] |}.

Definition with_chat_call (messages : list context_message)
    (tools : option (list ToolDef)) (s : State) : State :=
  {| history := history s; clock := clock s;
     chat_calls := chat_calls s ++ [(messages, tools)];
     executed := executed s; appended := appended s |}.

Definition with_executed (tool_name : string) (arguments : Py.kwargs)
    (s : State) : State :=
  {| history := history s; clock := clock s; chat_calls := chat_calls s;
     executed := executed s ++ [(tool_name, arguments)];
     appended := appended s |}.

(** [self.conversation.add_message(role, content, ...)]. *)
Definition conversation_add_message (env : Env) (role content : string)
    (tool_calls : option (list ToolCall)) (tool_name : option string) : M unit :=
  fun s => (Ok tt, with_message env role content tool_calls tool_name s).

(** [self.llm_client.chat(messages, tools)]. *)
Definition llm_chat (env : Env) (messages : list context_message)
    (tools : option (list ToolDef)) : M LLMResponse :=
  fun s => (chat env (length (chat_calls s)) messages tools,
            with_chat_call messages tools s).

(** [registry.execute_tool(tool_name, **arguments)]. *)
Definition registry_execute_tool (env : Env) (tool_name : string)
    (arguments : Py.kwargs) : M Py.value :=
  fun s => (execute_tool (registry env) tool_name arguments,
            with_executed tool_name arguments s).

(** [tool_call.get('function', {}).get('name')]. *)
Definition tool_name_of (tool_call : ToolCall) : option string :=
  match tc_function tool_call with
  | Some function_data => fd_name function_data
  | None => None
  end.

(** [tool_call.get('function', {}).get('arguments', {})]. *)
Definition arguments_of (tool_call : ToolCall) : Py.kwargs :=
  match tc_function tool_call with
  | Some function_data => default [] (fd_arguments function_data)
  | None => []
  end.

(** [tool_name or "unknown"]. *)
Definition or_unknown (tool_name : option string) : string :=
  match tool_name with
  | Some n => if Py.truthy n then n else "unknown"
  | None => "unknown"
  end.

Definition tool_result (content tool_name : string) : context_message :=
  {| c_role := "tool"; c_content := content;
     c_tool_calls := None; c_tool_name := Some tool_name |}.

(** The body of the loop of [_execute_tools] for one request. *)
Definition execute_one (env : Env) (tool_call : ToolCall) : M context_message :=
  let tool_name := tool_name_of tool_call in
  let arguments := arguments_of tool_call in
  try_except
    (match tool_name with
     | Some n =>
         if Py.truthy n then
           let* result :=
             try_except (registry_execute_tool env n arguments)
               [ (ToolNotFoundError,
                  fun _ => raise (mkToolError ("Tool '" +:+ n +:+ "' not found"))) ] in
           ret (tool_result (Py.str result) n)
         else raise (mkToolError "Missing tool name in tool call")
     | None => raise (mkToolError "Missing tool name in tool call")
     end)
    [ (Exception,
       fun e =>
         let error_msg := "Tool execution failed: " +:+ msg e in
         ret (tool_result error_msg (or_unknown tool_name))) ].

Fixpoint _execute_tools (env : Env) (tool_calls : list ToolCall)
    : M (list context_message) :=
  match tool_calls with
  | [] => ret []
  | tool_call :: rest =>
      let* result := execute_one env tool_call in
      let* results := _execute_tools env rest in
      ret (result :: results)
  end.

(** The loop of [_handle_tool_calls] over the results: each one goes to
    the context being built and to the conversation log. *)
Fixpoint add_tool_results (env : Env) (tool_results : list context_message)
    (context_messages : list context_message) : M (list context_message) :=
  match tool_results with
  | [] => ret context_messages
  | result :: rest =>
      let context_messages := context_messages ++ [result] in
      let* _ := conversation_add_message env "tool" (c_content result) None
                  (c_tool_name result) in
      add_tool_results env rest context_messages
  end.

(** [_handle_tool_calls]; [depth] is the number of nested calls the
    interpreter still allows. *)
Fixpoint _handle_tool_calls (env : Env) (depth : nat) (response : LLMResponse)
    (context_messages : list context_message) (tools_schema : list ToolDef)
    : M string :=
  match depth with
  | O => raise mkRecursionError
  | S depth =>
      let tool_calls := cm_tool_calls (Llm.message response) in
      let* _ := conversation_add_message env "assistant"
                  (cm_content (Llm.message response)) tool_calls None in
      let* tool_results := _execute_tools env (default [] tool_calls) in
      let* context_messages := add_tool_results env tool_results context_messages in
      let* final_response := llm_chat env context_messages None in
      match has_tool_calls final_response with
      | Some _ =>
          _handle_tool_calls env depth final_response context_messages tools_schema
      | None =>
          let* _ := conversation_add_message env "assistant"
                      (cm_content (Llm.message final_response)) None None in
          ret (cm_content (Llm.message final_response))
      end
  end.

Definition get_state : M State := fun s => (Ok s, s).

(** The [try] block of [process_message]. *)
Definition process_message_try (env : Env) (user_input : string) : M string :=
  let* _ := conversation_add_message env "user" user_input None None in
  let system_prompt := build_system_prompt env (registry env) in
  let* s := get_state in
  let context_messages :=
    get_context_messages (max_history env) system_prompt (history s) in
  let tools_schema := get_tools_schema (registry env) in
  let* response := llm_chat env context_messages (Some tools_schema) in
  match has_tool_calls response with
  | Some _ =>
      _handle_tool_calls env (recursion_limit env) response context_messages
        tools_schema
  | None =>
      let* _ := conversation_add_message env "assistant"
                  (cm_content (Llm.message response)) None None in
      ret (cm_content (Llm.message response))
  end.

(** What an [except] clause of [process_message] does. *)
Definition report_error (env : Env) (prefix : string) (e : exn) : M string :=
  let error_msg := prefix +:+ msg e in
  let* _ := conversation_add_message env "error" error_msg None None in
  ret error_msg.

Definition process_message (env : Env) (user_input : string) : M string :=
  try_except (process_message_try env user_input)
    [ (LLMError, report_error env "LLM Error: ");
      (Exception, report_error env "Unexpected error: ") ].

(** The text [process_message] reports for an exception. *)
Definition error_text (e : exn) : string :=
  (if isinstance e LLMError then "LLM Error: " else "Unexpected error: ")
  +:+ msg e.


(** The state in which the first request of a turn has just been sent. *)
Definition after_first_request (env : Env) (user_input : string)
    (s : State) : State :=
  let s0 := with_message env "user" user_input None None s in
  with_chat_call
    (get_context_messages (max_history env)
       (build_system_prompt env (registry env)) (history s0))
    (Some (get_tools_schema (registry env))) s0.

(** The text of the exception [execute_tool] raises when the handler of
    [tool_name] raised [e]. *)
Definition failure_text (tool_name : string) (e : exn) : string :=
  if isinstance e TypeError then
    "Tool '" +:+ tool_name +:+ "' validation failed: " +:+ msg e
  else "Tool '" +:+ tool_name +:+ "' execution failed: " +:+ msg e.


(** One log extends another by entries that all satisfy [P]. *)
Definition extends_by {A} (P : A -> Prop) (l l' : list A) : Prop :=
  exists rest, l' = l ++ rest /\ Forall P rest.

(** A request to the LLM client that offers no tools. *)
Definition no_tools (c : list context_message * option (list ToolDef)) : Prop :=
  snd c = None.

Definition not_error (m : message) : Prop := role m <> "error".

(** How the records of a state can grow while the body of a turn runs
    after its first request: requests without tools, any calls of
    [execute_tool], and log entries that are not error entries. *)
Definition grows (s s' : State) : Prop :=
  extends_by no_tools (chat_calls s) (chat_calls s')
  /\ extends_by (fun _ => True) (executed s) (executed s')
  /\ extends_by not_error (appended s) (appended s').

(** [m] only lets the records grow, from every state. *)
Definition growing {A} (m : M A) : Prop := forall s, grows s (snd (m s)).

(** The call of [execute_tool] a request leads to: none for a request
    without a name. *)
Definition named_request (tool_call : ToolCall) : option (string * Py.kwargs) :=
  match tool_name_of tool_call with
  | Some n => if Py.truthy n then Some (n, arguments_of tool_call) else None
  | None => None
  end.

(** A result of [_execute_tools] for a request: a tool entry under the name
    of the request, or under "unknown". *)
Definition result_for (tool_call : ToolCall) (r : context_message) : Prop :=
  c_role r = "tool"
  /\ c_tool_calls r = None
  /\ c_tool_name r = Some (or_unknown (tool_name_of tool_call)).

(** What the body of the loop of [_execute_tools] comes to for one request:
    its result, and the state after it. *)
Definition result_of (env : Env) (tool_call : ToolCall) : context_message :=
  match named_request tool_call with
  | None =>
      tool_result "Tool execution failed: Missing tool name in tool call"
        "unknown"
  | Some (n, arguments) =>
      match Py.dict_get n (_tools (registry env)) with
      | None =>
          tool_result ("Tool execution failed: Tool '" +:+ n +:+ "' not found") n
      | Some f =>
          match f_call f arguments with
          | Ok v => tool_result (Py.str v) n
          | Raise e =>
              tool_result ("Tool execution failed: " +:+ failure_text n e) n
          end
      end
  end.

Definition after_request (s : State) (tool_call : ToolCall) : State :=
  match named_request tool_call with
  | Some (n, arguments) => with_executed n arguments s
  | None => s
  end.

(** Requests after the one with context [context]: each offers no tools and
    has the context of the request before it plus tool entries. *)
Fixpoint continues (context : list context_message)
    (calls : list (list context_message * option (list ToolDef))) : Prop :=
  match calls with
  | [] => True
  | (context', tools) :: rest =>
      tools = None
      /\ (exists results,
            context' = context ++ results
            /\ Forall (fun r => c_role r = "tool") results)
      /\ continues context' rest
  end.

(** The log, the clock and the record of appended entries move together:
    [s'] comes from [s] by handing the entries [new] to [add_message]. *)
Definition logged (env : Env) (new : list message) (s s' : State) : Prop :=
  appended s' = appended s ++ new
  /\ history s' = append_all (max_history env) new (history s)
  /\ clock s' = (clock s + length new)%nat.

(** The roles the body of a turn logs after the user entry. *)
Definition mid_role (m : message) : Prop :=
  role m = "assistant" \/ role m = "tool".

(** [m] changes the log through [add_message] only, with assistant and tool
    entries. *)
Definition logging (env : Env) {A} (m : M A) : Prop :=
  forall s, exists new, logged env new s (snd (m s)) /\ Forall mid_role new.


End Agent.

(** ** Objects and references: what [list.copy()] shares *)

Module Heap.
Import Conversation.

(** Python values are references into a store of objects. A list object
    holds references in its slots; a message is a dict object. *)
Abbreviation ref := nat.

Inductive object :=
| OList (items : list ref)
| ODict (entry : message).

Abbreviation Store := (gmap ref object).

(** A new object gets a reference no object has yet. *)
Definition alloc (o : object) (st : Store) : ref * Store :=
  let r := fresh (dom st) in (r, <[r := o]> st).

(** A [ConversationManager]: its attribute [history] refers to a list. *)
Record Manager := { history : ref }.

(** [l.copy()]: a new list object with the same slots. *)
Definition list_copy (l : ref) (st : Store) : option (ref * Store) :=
  match st !! l with
  | Some (OList items) => Some (alloc (OList items) st)
  | _ => None
  end.

(** [get_history]: [return self.history.copy()]. *)
Definition get_history (self : Manager) (st : Store) : option (ref * Store) :=
  list_copy (history self) st.

(** What is seen when a list of messages is read through a reference. *)
Definition read_entry (st : Store) (r : ref) : option message :=
  match st !! r with
  | Some (ODict m) => Some m
  | _ => None
  end.

Fixpoint read_entries (st : Store) (items : list ref) : option (list message) :=
  match items with
  | [] => Some []
  | r :: rs =>
      match read_entry st r, read_entries st rs with
      | Some m, Some ms => Some (m :: ms)
      | _, _ => None
      end
  end.

Definition read_list (st : Store) (l : ref) : option (list message) :=
  match st !! l with
  | Some (OList items) => read_entries st items
  | _ => None
  end.

(** The mutating operations of a list; [None] is an [IndexError]. *)
Inductive list_op :=
| Append (x : ref)
| Extend (xs : list ref)
| Insert (i : nat) (x : ref)
| SetItem (i : nat) (x : ref)
| DelItem (i : nat)
| Pop
| Clear
| Reverse.

Definition apply_list_op (op : list_op) (items : list ref) : option (list ref) :=
  match op with
  | Append x => Some (items ++ [x])
  | Extend xs => Some (items ++ xs)
  | Insert i x => Some (take i items ++ x :: drop i items)
  | SetItem i x =>
      if (i <? length items)%nat then Some (<[i := x]> items) else None
  | DelItem i =>
      if (i <? length items)%nat then Some (delete i items) else None
  | Pop =>
      match items with
      | [] => None
      | _ => Some (take (length items - 1) items)
      end
  | Clear => Some []
  | Reverse => Some (rev items)
  end.

(** A list operation applied through the reference [l]. *)
Definition mutate_list (l : ref) (op : list_op) (st : Store) : option Store :=
  match st !! l with
  | Some (OList items) =>
      match apply_list_op op items with
      | Some items' => Some (<[l := OList items']> st)
      | None => None
      end
  | _ => None
  end.

Fixpoint mutate_all (l : ref) (ops : list list_op) (st : Store) : option Store :=
  match ops with
  | [] => Some st
  | op :: ops' =>
      match mutate_list l op st with
      | Some st' => mutate_all l ops' st'
      | None => None
      end
  end.

(** [l[i]["content"] = text]: a change of the message in slot [i], made
    through the list [l]. *)
Definition set_content (l : ref) (i : nat) (text : string) (st : Store)
    : option Store :=
  match st !! l with
  | Some (OList items) =>
      match items !! i with
      | Some r =>
          match st !! r with
          | Some (ODict m) =>
              Some (<[r := ODict {| role := role m; content := text;
                                    timestamp := timestamp m;
                                    tool_calls := tool_calls m;
                                    tool_name := tool_name m |}]> st)
          | _ => None
          end
      | None => None
      end
  | _ => None
  end.

(** [load_history]: [self.conversation.history = history.copy()]; the
    attribute is bound to the new list. *)
Definition load_history (self : Manager) (loaded : ref) (st : Store)
    : option (Manager * Store) :=
  match list_copy loaded st with
  | Some (l, st') => Some ({| history := l |}, st')
  | None => None
  end.

(** [clear_history]: [self.history.clear()], on the list in place. *)
Definition clear_history (self : Manager) (st : Store) : option Store :=
  mutate_list (history self) Clear st.

End Heap.

(** * utils/performance.py *)

Module Performance.
Import Conversation.

(** [MemoryOptimizer.optimize_conversation_history(history, max_size)]. *)
Definition optimize_conversation_history (history : list message)
    (max_size : Z) : list message :=
  if (Z.of_nat (length history) <=? max_size)%Z then history
  else
    let system_msgs := List.filter is_system history in
    let other_msgs := List.filter (fun msg => negb (is_system msg)) history in
    let recent_msgs := Py.slice_from (- max_size) other_msgs in
    system_msgs ++ recent_msgs.

End Performance.

(** ** [src/tools/loader.py]: the summary of the loaded tools *)

Module Loader.
Import Tools.

Record Summary := {
  total_tools : nat;
  tools_by_category : Py.dict nat;
  tool_names : list string
}.

(** [ToolLoader.get_tool_summary]. *)
Definition get_tool_summary (registry : ToolRegistry) : Summary :=
  let tools := list_tools registry in
  let categories := get_tools_by_category registry in
  {| total_tools := length tools;
     tools_by_category :=
       foldl (fun d '(cat, tools) => Py.dict_set cat (length tools) d) []
             categories;
     tool_names := Py.sorted tools |}.

End Loader.

(** ** [PromptBuilder] *)

Module Prompt.
Import Tools.

Definition newline : string := String "010" EmptyString.

(** One section of the tool overview, lines 33-35. *)
Definition tool_section (category : string) (tool_infos : list ToolInfo) : string :=
  let category_title := Py.title (Py.replace_char "_" " " category) in
  let tool_list :=
    Py.join newline
      (map (fun tool_info =>
              "  - " +:+ name tool_info +:+ ": " +:+ description tool_info)
           tool_infos) in
  "**" +:+ category_title +:+ " Tools:**" +:+ newline +:+ tool_list.

(** [tool_overview], lines 28-37: the sections in the order of the sorted
    category names, with an empty line between them. *)
Definition tool_overview (registry : ToolRegistry) : string :=
  Py.join (newline +:+ newline)
    (map (fun '(category, tool_infos) => tool_section category tool_infos)
         (Py.sorted_by fst (get_tools_by_category registry))).

Definition prompt_head : string :=
  "You are an AI assistant with access to tools organized by category:"
  +:+ newline +:+ newline.

Definition prompt_policy : string :=
  Py.join newline
    [ ""; "";
      "CORE PRINCIPLES:";
      "- When users request actions that require tools, select and use the appropriate tools";
      "- Tool results are the source of truth - never fabricate information";
      "- If a tool fails, explain the error clearly to the user";
      "- Maintain conversation context and topic awareness";
      "";
      "TOOL SELECTION STRATEGY:";
      "- Use the most appropriate tool for each task";
      "- Prefer combined tools for multi-step operations";
      "- Use specific tools for focused tasks";
      "";
      "OPERATION GUIDELINES:";
      "- **Single operations**: Use individual tools for simple tasks";
      "- **Multiple operations**: Prefer combined tools when available (more reliable)";
      "- **File operations**: Use current directory '.' when path not specified";
      "- **Content handling**: Use exact content from tool results when saving files";
      "";
      "RESPONSE STYLE:";
      "- Interpret tool outputs clearly in natural language";
      "- Summarize what was accomplished";
      "- Suggest logical next steps when appropriate";
      "- Be concise and friendly";
      "- Format responses suitable for CLI output unless specified otherwise";
      "";
      "Choose tools based on what the user actually requests, not assumptions." ].

(** [build_system_prompt]: no step of the [try] block raises on a registry
    of the model, so the fallback prompt of the [except] clause is never
    needed here. *)
Definition build_system_prompt (registry : ToolRegistry) : string :=
  prompt_head +:+ tool_overview registry +:+ prompt_policy.

End Prompt.

(** ** Sample inputs used by the examples below *)

Module Examples.
Import Conversation.

(** [n] user entries, numbered from 0 in their contents. *)
Definition user_messages (n : nat) : list message :=
  map (fun i => {| role := "user"; content := pretty (Z.of_nat i);
                   timestamp := ""; tool_calls := None; tool_name := None |})
      (seq 0 n).

Definition entry (r c : string) : message :=
  {| role := r; content := c; timestamp := "";
     tool_calls := None; tool_name := None |}.

(** A log with every kind of role in it. *)
Definition mixed_history : list message :=
  [ entry "system" "boot"; entry "user" "hello"; entry "assistant" "hi";
    entry "error" "LLM Error: down";
    {| role := "tool"; content := "42"; timestamp := "";
       tool_calls := None; tool_name := Some "add_numbers" |} ].

Import Exceptions Tools.

(** [def f(a: str, b: int = 0)] with no docstring. *)
Definition f_a_b : Function :=
  {| f_name := "f"; f_doc := None;
     f_signature :=
       [ {| p_name := "a"; p_kind := POSITIONAL_OR_KEYWORD;
            p_annotation := Some AnnStr; p_default := None |};
         {| p_name := "b"; p_kind := POSITIONAL_OR_KEYWORD;
            p_annotation := Some AnnInt; p_default := Some (Py.VInt 0) |} ];
     f_call := fun _ => Ok (Py.VStr "ok") |}.


(** A handler that returns a constant, whatever it is called with. *)
Definition constant_tool (fname : string) (v : Py.value) : Function :=
  {| f_name := fname; f_doc := None; f_signature := [];
     f_call := fun _ => Ok v |}.


Definition plain (n : string) (f : Function) : Registration :=
  {| r_name := n; r_function := f; r_description := None;
     r_category := None; r_schema := None |}.

Import Llm Agent.

Definition empty_state : State :=
  {| history := []; clock := 0; chat_calls := []; executed := [];
     appended := [] |}.

Definition request (n : string) (arguments : Py.kwargs) : ToolCall :=
  {| tc_id := None;
     tc_function := Some {| fd_name := Some n; fd_arguments := Some arguments |} |}.

Definition reply (text : string) (calls : option (list ToolCall)) : LLMResponse :=
  {| message := {| cm_role := "assistant"; cm_content := text;
                   cm_tool_calls := calls; cm_tool_name := None |};
     timing := 0; model := "llama3.1:8b" |}.

(** A turn environment with the default configuration around a registry
    and a scripted client. *)
Definition env_of (rs : list Registration)
    (script : nat -> result LLMResponse) : Env :=
  {| max_history := 10;
     registry := register_all rs;
     build_system_prompt := fun _ => "You are a helpful AI assistant.";
     chat := fun n _ _ => script n;
     now := fun n => pretty n;
     recursion_limit := 1000 |}.

(** The default configuration of the client, and a transport on which
    every request runs into a read timeout. *)
Definition default_config : Client.Config :=
  {| Client.chat_url := "http://localhost:11434/api/chat";
     Client.model := "llama3.1:8b"; Client.timeout := 30 |}.


(** One tool call on the first round, a plain answer on the second. *)
Definition add_args : Py.kwargs := [("a", Py.VStr "40"); ("b", Py.VStr "2")].

Definition chain_env : Env :=
  env_of [plain "add_numbers" (constant_tool "add_numbers" (Py.VInt 42))]
    (fun n => match n with
              | O => Ok (reply "" (Some [request "add_numbers" add_args]))
              | _ => Ok (reply "The sum is 42." None)
              end).



(** A tool call with no [function] entry. *)
Definition nameless : ToolCall := {| tc_id := None; tc_function := None |}.

(** A store with a manager whose log holds two messages. *)
Definition two_messages : Heap.Store :=
  {[ 0%nat := Heap.ODict (entry "user" "hello");
     1%nat := Heap.ODict (entry "assistant" "hi");
     2%nat := Heap.OList [0%nat; 1%nat] ]}.

Definition manager : Heap.Manager := {| Heap.history := 2 |}.

(** [save_note] registered twice, with [search_note] in between. *)
Definition overwriting : list Registration :=
  [ plain "save_note" (constant_tool "old" (Py.VStr "old"));
    plain "search_note" (constant_tool "find" (Py.VStr "found"));
    plain "save_note" (constant_tool "new" (Py.VStr "new")) ].

End Examples.

(* ==== properties ==== *)

(** ** Python primitives *)

Section PyFacts.

Lemma slice_from_neg {A} (k : Z) (l : list A) :
  (0 < k)%Z -> Py.slice_from (- k) l = Conversation.last_n (Z.to_nat k) l.
Proof.
  intros Hk. unfold Py.slice_from, Conversation.last_n.
  destruct (Z.ltb_spec (- k) 0) as [_|?]; [|lia].
  f_equal. lia.
Qed.

Lemma slice_from_zero {A} (l : list A) : Py.slice_from (- 0) l = l.
Proof. unfold Py.slice_from. simpl. rewrite Z.min_l by lia. reflexivity. Qed.

End PyFacts.

(** ** Windows of a list *)

Section Windows.
Import Conversation.

Lemma length_last_n {A} (k : nat) (l : list A) :
  (k <= length l)%nat -> length (last_n k l) = k.
Proof. intros Hk. unfold last_n. rewrite length_drop. lia. Qed.

Lemma last_n_snoc {A} (k : nat) (l : list A) (x : A) :
  (k <= length l)%nat -> last_n k l ++ [x] = last_n (S k) (l ++ [x]).
Proof.
  intros Hk. unfold last_n. rewrite length_app. simpl.
  replace (length l + 1 - S k)%nat with (length l - k)%nat by lia.
  rewrite drop_app_le by lia. reflexivity.
Qed.

Lemma last_n_last_n {A} (j k : nat) (l : list A) :
  (j <= k)%nat -> (k <= length l)%nat -> last_n j (last_n k l) = last_n j l.
Proof.
  intros Hj Hk. unfold last_n at 1 3. rewrite length_last_n by lia.
  unfold last_n. rewrite drop_drop. f_equal. lia.
Qed.

Lemma filter_system_none (l : list message) :
  Forall (fun m => is_system m = false) l -> List.filter is_system l = [].
Proof.
  induction 1 as [|m l Hm _ IH]; simpl; [reflexivity|].
  rewrite Hm. exact IH.
Qed.

End Windows.

(** ** The retention rule of the conversation log *)

Section HistoryTrimming.
Import Conversation.

Variable max_history : Z.
Hypothesis max_history_pos : (1 <= max_history)%Z.

Let mh : nat := Z.to_nat max_history.

Lemma retained_le n : (retained mh n <= n)%nat.
Proof.
  induction n as [|n IH]; simpl; [lia|].
  destruct (Nat.ltb_spec (mh * 2) (S (retained mh n))); lia.
Qed.

(** One append to a log that is a window of non-system entries. *)
Lemma append_and_trim_window (msgs : list message) (m : message) (r : nat) :
  Forall (fun m => is_system m = false) (msgs ++ [m]) ->
  (r <= length msgs)%nat ->
  append_and_trim max_history m (last_n r msgs)
  = last_n (if (mh * 2 <? S r)%nat then mh else S r) (msgs ++ [m]).
Proof.
  intros Hns Hr. unfold append_and_trim.
  rewrite last_n_snoc by exact Hr.
  rewrite length_last_n by (rewrite length_app; simpl; lia).
  destruct (Nat.ltb_spec (mh * 2) (S r)) as [Hlt|Hge].
  - destruct (Z.ltb_spec (max_history * 2) (Z.of_nat (S r))) as [_|?];
      [|subst mh; lia].
    rewrite filter_system_none.
    + simpl. rewrite slice_from_neg by lia. fold mh.
      apply last_n_last_n; [lia|rewrite length_app; simpl; lia].
    + unfold last_n. apply Forall_drop. exact Hns.
  - destruct (Z.ltb_spec (max_history * 2) (Z.of_nat (S r))) as [?|_];
      [subst mh; lia|reflexivity].
Qed.

(** After any number of appends of non-system entries to an empty log,
    the log is the window of the most recent [retained] entries. *)
Lemma append_all_window (msgs : list message) :
  Forall (fun m => is_system m = false) msgs ->
  append_all max_history msgs [] = last_n (retained mh (length msgs)) msgs.
Proof.
  induction msgs as [|m msgs IH] using rev_ind; intros Hns.
  - reflexivity.
  - unfold append_all in *. rewrite foldl_app. simpl.
    rewrite IH by (apply Forall_app in Hns; tauto).
    rewrite append_and_trim_window by (auto using retained_le).
    rewrite length_app, Nat.add_1_r. reflexivity.
Qed.

(** The recurrence in closed form: the log grows to [2 * max_history],
    the next append cuts it to [max_history], and from there on it cycles
    with period [max_history + 1]. *)
Lemma retained_small n : (n <= mh * 2)%nat -> retained mh n = n.
Proof.
  induction n as [|n IH]; intros Hn; simpl; [reflexivity|].
  rewrite IH by lia.
  destruct (Nat.ltb_spec (mh * 2) (S n)); lia.
Qed.

Lemma retained_cycle j :
  retained mh (mh * 2 + 1 + j) = (mh + j mod (mh + 1))%nat.
Proof.
  induction j as [|j IH].
  - rewrite Nat.add_0_r, Nat.add_1_r. simpl.
    rewrite retained_small by lia.
    destruct (Nat.ltb_spec (mh * 2) (S (mh * 2))); [|lia].
    rewrite Nat.Div0.mod_0_l. lia.
  - replace (mh * 2 + 1 + S j)%nat with (S (mh * 2 + 1 + j)) by lia.
    simpl. rewrite IH.
    assert (Hlt : (j mod (mh + 1) < mh + 1)%nat)
      by (apply Nat.mod_upper_bound; lia).
    replace (S j) with (j + 1)%nat by lia.
    rewrite <- Nat.Div0.add_mod_idemp_l.
    destruct (Nat.ltb_spec (mh * 2) (S (mh + j mod (mh + 1)))) as [Hc|Hc].
    + replace (j mod (mh + 1) + 1)%nat with (mh + 1)%nat by lia.
      rewrite Nat.Div0.mod_same. lia.
    + rewrite (Nat.mod_small (j mod (mh + 1) + 1)) by (subst mh; lia). lia.
Qed.

End HistoryTrimming.

Section HistoryTrimmingClaim.
Import Conversation.

(** System entries are never evicted by an append, whatever the window. *)
Lemma append_and_trim_keeps_system (max_history : Z) (m x : message)
    (history : list message) :
  In x (history ++ [m]) -> is_system x = true ->
  In x (append_and_trim max_history m history).
Proof.
  intros Hin Hsys. unfold append_and_trim.
  destruct (_ <? _)%Z; [|exact Hin].
  apply in_or_app. left. apply filter_In. split; assumption.
Qed.

(** C1, as amended. Appending [2 * max_history + 5] non-system entries to
    an empty log leaves the most recent
    [max_history + 4 mod (max_history + 1)] of them, in their original
    order, and no system entry: the trim fires at the append number
    [2 * max_history + 1] and the later appends grow the log again. From
    [max_history = 4] on that is [max_history + 4] entries. *)
Theorem history_trimming_window (max_history : Z) (msgs : list message) :
  (1 <= max_history)%Z ->
  Forall (fun m => is_system m = false) msgs ->
  Z.of_nat (length msgs) = (2 * max_history + 5)%Z ->
  let kept := Z.to_nat (max_history + 4 mod (max_history + 1)) in
  let history := append_all max_history msgs [] in
  history = last_n kept msgs
  /\ length (List.filter (fun m => negb (is_system m)) history) = kept
  /\ List.filter is_system history = []
  /\ ((4 <= max_history)%Z -> kept = Z.to_nat (max_history + 4)).
Proof.
  intros Hpos Hns Hlen kept history.
  assert (Hmod : (0 <= 4 mod (max_history + 1) < max_history + 1)%Z)
    by (apply Z.mod_pos_bound; lia).
  assert (Hkept : retained (Z.to_nat max_history) (length msgs) = kept).
  { replace (length msgs)
      with (Z.to_nat max_history * 2 + 1 + 4)%nat by lia.
    rewrite retained_cycle. subst kept.
    rewrite Z2Nat.inj_add by lia. f_equal.
    replace (Z.to_nat max_history + 1)%nat
      with (Z.to_nat (max_history + 1)) by lia.
    change 4%nat with (Z.to_nat 4).
    rewrite <- Z2Nat.inj_mod by lia. reflexivity. }
  assert (Hhist : history = last_n kept msgs).
  { subst history. rewrite append_all_window by assumption.
    rewrite Hkept. reflexivity. }
  assert (Hall : Forall (fun m => is_system m = false) history).
  { rewrite Hhist. unfold last_n. apply Forall_drop. exact Hns. }
  split; [exact Hhist|]. split; [|split].
  - rewrite forallb_filter_id.
    + rewrite Hhist. apply length_last_n. lia.
    + apply forallb_forall. intros x Hx.
      rewrite Forall_forall in Hall.
      rewrite Hall; [reflexivity|]. apply list_elem_of_In. exact Hx.
  - apply filter_system_none. exact Hall.
  - intros H4. subst kept. rewrite Z.mod_small by lia. reflexivity.
Qed.

(** The amended claim at the default configuration, [max_history = 10]. *)
Lemma history_trimming_window_witness :
  append_all 10 (Examples.user_messages 25) []
  = last_n 14 (Examples.user_messages 25).
Proof.
  refine (proj1 (history_trimming_window 10 (Examples.user_messages 25) _ _ _)).
  - lia.
  - repeat constructor.
  - reflexivity.
Defined.

(** C1 as stated fails: with the default [max_history = 10], 25 appended
    user entries leave 14 entries behind, not 10. *)
Lemma history_trimming_counterexample :
  let history := append_all 10 (Examples.user_messages 25) [] in
  length (List.filter (fun m => negb (is_system m)) history) = 14%nat
  /\ length (List.filter (fun m => negb (is_system m)) history) <> Z.to_nat 10.
Proof. vm_compute. split; [reflexivity|discriminate]. Qed.

End HistoryTrimmingClaim.

(** ** The context sent to the LLM *)

Section ContextProjection.
Import Conversation.





(** At a window of zero the slice [history[-0:]] is the whole log, so every
    user, assistant and tool entry of the log is sent. *)
Lemma context_at_zero_window (system_prompt : string) (history : list message) :
  tail (get_context_messages 0 system_prompt history) = omap context_of history.
Proof.
  unfold get_context_messages. cbn [tail].
  rewrite slice_from_zero. reflexivity.
Qed.


End ContextProjection.

(** ** Strings *)

Section Strings.

Lemma prefix_lower (w s : string) :
  String.prefix w s = true -> String.prefix (Py.lower w) (Py.lower s) = true.
Proof.
  revert s. induction w as [|a w IH]; intros s H; [destruct s; reflexivity|].
  destruct s as [|b s]; [discriminate|].
  simpl in *. destruct (Ascii.ascii_dec a b) as [->|]; [|discriminate].
  destruct (Ascii.ascii_dec _ _); [auto|congruence].
Qed.

Lemma contains_lower (w s : string) :
  Py.contains w s = true -> Py.contains (Py.lower w) (Py.lower s) = true.
Proof.
  induction s as [|b s IH]; simpl; rewrite !orb_true_iff.
  - intros [H|H]; [|discriminate]. left. apply (prefix_lower w ""). exact H.
  - intros [H|H].
    + left. apply (prefix_lower w (String b s)). exact H.
    + right. auto.
Qed.

(** A word found in a name is found in its lower-case form as well, when
    the word itself is in lower case. *)
Lemma any_in_lower (ws : list string) (s : string) :
  Forall (fun w => Py.lower w = w) ws ->
  Py.any_in ws s = true -> Py.any_in ws (Py.lower s) = true.
Proof.
  unfold Py.any_in. intros Hws H.
  apply existsb_exists in H as (w & Hin & Hw).
  apply existsb_exists. exists w. split; [exact Hin|].
  rewrite Forall_forall in Hws.
  rewrite <- (Hws w) by (apply list_elem_of_In; exact Hin).
  apply contains_lower. exact Hw.
Qed.

Lemma prefix_app (w s : string) : String.prefix w (w +:+ s) = true.
Proof.
  induction w as [|a w IH]; [destruct s; reflexivity|].
  simpl. destruct (Ascii.ascii_dec a a); [exact IH|congruence].
Qed.

Lemma contains_prefix (w s : string) :
  String.prefix w s = true -> Py.contains w s = true.
Proof. intros H. destruct s; cbn [Py.contains]; rewrite H; reflexivity. Qed.

Lemma contains_app (w pre post : string) :
  Py.contains w (pre +:+ w +:+ post) = true.
Proof.
  induction pre as [|a pre IH].
  - apply contains_prefix. exact (prefix_app w post).
  - change (Py.contains w (String a (pre +:+ w +:+ post)) = true).
    cbn [Py.contains]. rewrite IH. apply orb_true_r.
Qed.

End Strings.

(** ** Category inference *)

Section CategoryInference.
Import Tools.

(** C2, as amended. The rules are tried on the lower-cased name in a fixed
    order and the first match wins: a name with "save", "write" or "store"
    is in storage unless it has "generate"; a name with "search", "find"
    or "query" is in search unless it has "generate" or a storage word; a
    name that matches no rule is in utility. *)
Theorem category_inference (name : string) :
  let name_lower := Py.lower name in
  (Py.contains "generate" name_lower = false ->
   Py.any_in ["save"; "write"; "store"] name_lower = true ->
   _auto_categorize name = "storage")
  /\ (Py.contains "generate" name_lower = false ->
      Py.any_in ["save"; "write"; "store"] name_lower = false ->
      Py.any_in ["search"; "find"; "query"] name_lower = true ->
      _auto_categorize name = "search")
  /\ (Py.contains "generate" name_lower = false ->
      Py.any_in ["save"; "write"; "store"] name_lower = false ->
      Py.any_in ["search"; "find"; "query"] name_lower = false ->
      Py.any_in ["read"; "list"; "get"; "fetch"] name_lower = false ->
      Py.any_in ["email"; "send"; "message"] name_lower = false ->
      Py.contains "_and_" name_lower = false ->
      Py.any_in ["calculate"; "math"; "compute"] name_lower = false ->
      Py.any_in ["password"; "encrypt"; "hash"] name_lower = false ->
      _auto_categorize name = "utility").
Proof.
  intros name_lower. unfold _auto_categorize. fold name_lower.
  repeat split; intros; repeat match goal with H : _ = _ |- _ => rewrite H end;
    reflexivity.
Qed.

Lemma category_inference_witness :
  _auto_categorize "save_x" = "storage"
  /\ _auto_categorize "search_x" = "search"
  /\ _auto_categorize "foo_bar" = "utility".
Proof.
  split; [|split].
  - apply (proj1 (category_inference "save_x")); reflexivity.
  - apply (proj1 (proj2 (category_inference "search_x"))); reflexivity.
  - apply (proj2 (proj2 (category_inference "foo_bar"))); reflexivity.
Defined.

(** C2 as stated fails: a name that contains "save" is not in storage when
    it also contains "generate", and a name that contains "search" is not
    in search when it also contains "save". *)
Lemma category_inference_counterexample :
  Py.contains "save" "generate_and_save_todo" = true
  /\ _auto_categorize "generate_and_save_todo" = "generation"
  /\ _auto_categorize "generate_and_save_todo" <> "storage"
  /\ Py.contains "search" "search_and_save" = true
  /\ _auto_categorize "search_and_save" = "storage"
  /\ _auto_categorize "search_and_save" <> "search".
Proof. vm_compute. repeat split; discriminate. Qed.

End CategoryInference.

(** ** Insertion-ordered dictionaries *)

Section Dicts.
Context {V : Type}.
Implicit Types (d : Py.dict V) (k : string) (v : V).

Lemma dict_get_set_eq d k v : Py.dict_get k (Py.dict_set k v d) = Some v.
Proof.
  induction d as [|[k' v'] d IH]; simpl.
  - rewrite String.eqb_refl. reflexivity.
  - destruct (String.eqb k k') eqn:E; simpl.
    + rewrite String.eqb_refl. reflexivity.
    + rewrite E. exact IH.
Qed.

Lemma dict_get_set_ne d k k' v :
  k <> k' -> Py.dict_get k' (Py.dict_set k v d) = Py.dict_get k' d.
Proof.
  intros Hne. induction d as [|[k0 v0] d IH]; simpl.
  - destruct (String.eqb_spec k' k); [congruence|reflexivity].
  - destruct (String.eqb_spec k k0) as [->|]; simpl.
    + destruct (String.eqb_spec k' k0); [congruence|reflexivity].
    + rewrite IH. reflexivity.
Qed.

Lemma dict_get_Some_In d k v : Py.dict_get k d = Some v -> In (k, v) d.
Proof.
  induction d as [|[k' v'] d IH]; simpl; [discriminate|].
  destruct (String.eqb_spec k k') as [->|].
  - intros [= ->]. left. reflexivity.
  - intros H. right. auto.
Qed.

Lemma dict_get_None d k : Py.dict_get k d = None <-> ~ In k (Py.dict_keys d).
Proof.
  induction d as [|[k' v'] d IH]; simpl; [tauto|].
  destruct (String.eqb_spec k k') as [->|]; split.
  - discriminate.
  - intros H. exfalso. apply H. left. reflexivity.
  - intros H [E|Hin]; [congruence|]. apply IH in H. auto.
  - intros H. apply IH. tauto.
Qed.

Lemma dict_get_In_NoDup d k v :
  NoDup (Py.dict_keys d) -> In (k, v) d -> Py.dict_get k d = Some v.
Proof.
  induction d as [|[k' v'] d IH]; simpl; [tauto|].
  intros Hnd [E|Hin].
  - inversion E; subst. rewrite String.eqb_refl. reflexivity.
  - apply NoDup_cons in Hnd as [Hk' Hnd].
    destruct (String.eqb_spec k k') as [->|]; [|auto].
    exfalso. apply Hk'. apply list_elem_of_In.
    change k' with (fst (k', v)). apply in_map. exact Hin.
Qed.

Lemma dict_set_fresh d k v :
  ~ In k (Py.dict_keys d) -> Py.dict_set k v d = d ++ [(k, v)].
Proof.
  induction d as [|[k' v'] d IH]; simpl; [reflexivity|].
  intros H. destruct (String.eqb_spec k k') as [->|]; [tauto|].
  rewrite IH by tauto. reflexivity.
Qed.

(** The keys after an assignment depend on the keys before it only. *)
Lemma dict_keys_set {W} d (d' : Py.dict W) k v (w : W) :
  Py.dict_keys d = Py.dict_keys d' ->
  Py.dict_keys (Py.dict_set k v d) = Py.dict_keys (Py.dict_set k w d').
Proof.
  revert d'. induction d as [|[k0 v0] d IH]; intros [|[k1 w1] d'];
    simpl; try discriminate; [reflexivity|].
  intros [= <- Hk]. destruct (String.eqb k k0); simpl.
  - rewrite Hk. reflexivity.
  - rewrite (IH d' Hk). reflexivity.
Qed.

Lemma dict_keys_set_In d k v k' :
  In k' (Py.dict_keys (Py.dict_set k v d)) <-> k' = k \/ In k' (Py.dict_keys d).
Proof.
  induction d as [|[k0 v0] d IH]; simpl; [intuition congruence|].
  destruct (String.eqb_spec k k0) as [->|]; simpl; [intuition congruence|].
  rewrite IH. intuition congruence.
Qed.

End Dicts.

(** ** Schema inference from a signature *)

Section AutoSchema.
Import Tools.

Lemma schema_loop_spec (function : Function) (params : list Param)
    (properties : Py.dict ParamSchema) (required : list string) :
  NoDup (Py.dict_keys properties ++ map p_name params) ->
  schema_loop function params properties required
  = (properties
       ++ map (fun p => (p_name p, param_schema_of function p))
            (List.filter is_property params),
     required ++ map p_name (List.filter is_required params)).
Proof.
  revert properties required.
  induction params as [|p params IH]; intros properties required Hnd; simpl.
  - rewrite !app_nil_r. reflexivity.
  - assert (Hnd' : NoDup (Py.dict_keys properties ++ map p_name params)).
    { apply NoDup_app in Hnd as (H1 & H2 & H3).
      apply NoDup_app. split; [exact H1|]. split.
      - intros x Hx Hx'. apply (H2 x Hx). right. exact Hx'.
      - apply NoDup_cons in H3. tauto. }
    unfold is_required, is_property.
    destruct (is_variadic (p_kind p)); simpl.
    + apply IH. exact Hnd'.
    + rewrite IH.
      * rewrite dict_set_fresh.
        -- rewrite <- app_assoc. simpl.
           destruct (p_default p); [reflexivity|].
           rewrite <- app_assoc. reflexivity.
        -- apply NoDup_app in Hnd as (_ & H2 & _).
           intros Hin. apply (H2 (p_name p)).
           ++ apply list_elem_of_In. exact Hin.
           ++ left.
      * rewrite dict_set_fresh.
        -- unfold Py.dict_keys. rewrite map_app. simpl.
           rewrite <- app_assoc. exact Hnd.
        -- apply NoDup_app in Hnd as (_ & H2 & _).
           intros Hin. apply (H2 (p_name p)).
           ++ apply list_elem_of_In. exact Hin.
           ++ left.
Qed.

Lemma NoDup_map_inj {A B} (f : A -> B) (l : list A) (x y : A) :
  NoDup (map f l) -> In x l -> In y l -> f x = f y -> x = y.
Proof.
  induction l as [|a l IH]; simpl; [tauto|].
  intros Hnd Hx Hy E. apply NoDup_cons in Hnd as [Ha Hnd].
  destruct Hx as [->|Hx], Hy as [->|Hy]; auto.
  - exfalso. apply Ha. apply list_elem_of_In. rewrite E.
    apply in_map. exact Hy.
  - exfalso. apply Ha. apply list_elem_of_In. rewrite <- E.
    apply in_map. exact Hx.
Qed.

Lemma NoDup_map_filter {A B} (f : A -> B) (P : A -> bool) (l : list A) :
  NoDup (map f l) -> NoDup (map f (List.filter P l)).
Proof.
  induction l as [|a l IH]; simpl; [auto|].
  intros Hnd. apply NoDup_cons in Hnd as [Ha Hnd].
  destruct (P a); simpl; [|auto].
  apply NoDup_cons. split; [|auto].
  intros Hin. apply Ha.
  apply list_elem_of_In in Hin. apply list_elem_of_In.
  apply in_map_iff in Hin as (x & <- & Hx).
  apply in_map. apply filter_In in Hx. tauto.
Qed.

(** C6. Every non-variadic parameter becomes a property, in signature
    order (a variadic one is left out altogether), whose type follows the
    annotation (int to integer, float to
    number, bool to boolean, list to array, dict to object, string
    otherwise); a parameter is required exactly when it has no default;
    for [f(a: str, b: int = 0)] the required list is ["a"] and the type of
    [b] is "integer". *)
Theorem auto_schema_inference (function : Function) :
  NoDup (map p_name (f_signature function)) ->
  let schema := _auto_generate_schema function in
  let params := List.filter is_property (f_signature function) in
  s_type schema = "object"
  /\ Py.dict_keys (s_properties schema) = map p_name params
  /\ (forall p, In p params ->
        exists ps, Py.dict_get (p_name p) (s_properties schema) = Some ps
                   /\ ps_type ps = annotation_type (p_annotation p))
  /\ (forall p, In p params ->
        (In (p_name p) (s_required schema) <-> p_default p = None))
  /\ (forall p, In p (f_signature function) -> is_property p = false ->
        ~ In (p_name p) (Py.dict_keys (s_properties schema))
        /\ ~ In (p_name p) (s_required schema))
  /\ (annotation_type (Some AnnInt) = "integer"
      /\ annotation_type (Some AnnFloat) = "number"
      /\ annotation_type (Some AnnBool) = "boolean"
      /\ annotation_type (Some AnnList) = "array"
      /\ annotation_type (Some AnnDict) = "object"
      /\ annotation_type (Some AnnStr) = "string"
      /\ annotation_type None = "string"
      /\ forall n, annotation_type (Some (AnnOther n)) = "string")
  /\ s_required (_auto_generate_schema Examples.f_a_b) = ["a"]
  /\ ps_type <$> Py.dict_get "b" (s_properties (_auto_generate_schema Examples.f_a_b))
     = Some "integer".
Proof.
  intros Hnd schema params.
  assert (Hloop := schema_loop_spec function (f_signature function) [] []).
  simpl in Hloop. specialize (Hloop Hnd).
  subst schema. unfold _auto_generate_schema. rewrite Hloop. simpl.
  fold params.
  assert (Hkeys : Py.dict_keys
            (map (fun p => (p_name p, param_schema_of function p)) params)
          = map p_name params).
  { unfold Py.dict_keys. rewrite map_map. reflexivity. }
  split; [reflexivity|]. split; [exact Hkeys|]. split; [|split].
  - intros p Hp. exists (param_schema_of function p). split; [|reflexivity].
    apply dict_get_In_NoDup.
    + rewrite Hkeys. apply NoDup_map_filter. exact Hnd.
    + apply (in_map (fun p => (p_name p, param_schema_of function p))).
      exact Hp.
  - intros p Hp. apply filter_In in Hp as [Hp Hprop]. split.
    + intros Hin. apply in_map_iff in Hin as (q & Hname & Hq).
      apply filter_In in Hq as [Hq Hreq].
      assert (q = p) as -> by (eapply NoDup_map_inj; eauto).
      unfold is_required in Hreq. rewrite Hprop in Hreq.
      destruct (p_default p); [discriminate|reflexivity].
    + intros Hdef. apply in_map. apply filter_In. split; [exact Hp|].
      unfold is_required. rewrite Hprop, Hdef. reflexivity.
  - split; [|repeat split].
    intros p Hp Hvar. rewrite Hkeys. split; intros Hin;
      apply in_map_iff in Hin as (q & Hname & Hq);
      apply filter_In in Hq as [Hq Hsel];
      assert (q = p) as -> by (eapply NoDup_map_inj; eauto);
      unfold is_required in Hsel; rewrite Hvar in Hsel; discriminate.
Qed.

Lemma auto_schema_inference_witness :
  Py.dict_keys (s_properties (_auto_generate_schema Examples.f_a_b)) = ["a"; "b"].
Proof.
  refine (proj1 (proj2 (auto_schema_inference Examples.f_a_b _))).
  compute_done.
Defined.

End AutoSchema.

(** ** Consistency of the two maps of the registry *)

Section RegistryConsistency.
Import Exceptions Tools.

Lemma isinstance_Exception (e : exn) : isinstance e Exception = true.
Proof. destruct e as [[] m]; reflexivity. Qed.

Lemma names_set (d : Py.dict ToolInfo) (info : ToolInfo) :
  map name (Py.dict_values d) = Py.dict_keys d ->
  map name (Py.dict_values (Py.dict_set (name info) info d))
  = Py.dict_keys (Py.dict_set (name info) info d).
Proof.
  induction d as [|[k v] d IH]; simpl; [reflexivity|].
  intros [= Hk Hd]. destruct (String.eqb (name info) k); simpl.
  - f_equal. exact Hd.
  - rewrite Hk. f_equal. apply IH. exact Hd.
Qed.

Lemma register_invariant (self : ToolRegistry) (r : Registration) :
  registry_invariant self -> registry_invariant (register self r).
Proof.
  intros (Hkeys & Hnames & Hfun). unfold register, register_tool.
  split; [|split]; cbn [_tools _tool_info].
  - apply dict_keys_set. exact Hkeys.
  - match goal with |- context [Py.dict_set _ ?i _] =>
      apply (names_set (_tool_info self) i) end.
    exact Hnames.
  - intros n. destruct (String.eqb_spec (r_name r) n) as [<-|Hne].
    + rewrite !dict_get_set_eq. reflexivity.
    + rewrite !dict_get_set_ne by exact Hne. apply Hfun.
Qed.

Lemma register_all_snoc (rs : list Registration) (r : Registration) :
  register_all (rs ++ [r]) = register (register_all rs) r.
Proof. unfold register_all. rewrite foldl_app. reflexivity. Qed.

Lemma register_all_invariant (rs : list Registration) :
  registry_invariant (register_all rs).
Proof.
  induction rs as [|r rs IH] using rev_ind.
  - repeat split.
  - rewrite register_all_snoc. apply register_invariant. exact IH.
Qed.

(** Later registrations under other names leave a handler in place. *)
Lemma foldl_register_other (rs : list Registration) (self : ToolRegistry)
    (n : string) :
  Forall (fun x => r_name x <> n) rs ->
  Py.dict_get n (_tools (foldl register self rs)) = Py.dict_get n (_tools self).
Proof.
  revert self. induction rs as [|r rs IH]; intros self Hrs; [reflexivity|].
  apply Forall_cons in Hrs as [Hr Hrs]. simpl. rewrite IH by exact Hrs.
  unfold register, register_tool. cbn [_tools].
  apply dict_get_set_ne. exact Hr.
Qed.

Lemma guarded_call_not_missing (n : string) (f : Function) (kw : Py.kwargs)
    (e : exn) :
  guarded_call n f kw = Raise e -> cls e <> ToolNotFoundError.
Proof.
  unfold guarded_call. destruct (f_call f kw) as [v|e0]; [discriminate|].
  destruct (isinstance e0 TypeError); [intros [= <-]; discriminate|].
  rewrite isinstance_Exception. intros [= <-]. discriminate.
Qed.

(** C10. After any sequence of registrations on a fresh registry the
    dispatch map and the metadata map have the same keys, in the same
    order; the callable under a name is the function of that name's
    record; a name runs through [execute_tool] without [ToolNotFoundError]
    exactly when [get_tools_schema] lists it; and [execute_tool] on a name
    calls the handler of the last registration under that name. *)
Theorem registry_consistency (rs : list Registration) :
  let registry := register_all rs in
  Py.dict_keys (_tools registry) = Py.dict_keys (_tool_info registry)
  /\ (forall n, Py.dict_get n (_tools registry)
                = function <$> Py.dict_get n (_tool_info registry))
  /\ (forall n kw,
        (forall e, execute_tool registry n kw = Raise e ->
                   cls e <> ToolNotFoundError)
        <-> In n (map td_name (get_tools_schema registry)))
  /\ (forall rs1 r rs2 kw,
        rs = rs1 ++ r :: rs2 ->
        Forall (fun x => r_name x <> r_name r) rs2 ->
        execute_tool registry (r_name r) kw
        = guarded_call (r_name r) (r_function r) kw).
Proof.
  intros registry.
  destruct (register_all_invariant rs) as (Hkeys & Hnames & Hfun).
  fold registry in Hkeys, Hnames, Hfun.
  split; [exact Hkeys|]. split; [exact Hfun|]. split.
  - intros n kw.
    assert (Hschema : map td_name (get_tools_schema registry)
                      = Py.dict_keys (_tools registry)).
    { unfold get_tools_schema. rewrite map_map. simpl.
      rewrite Hkeys, <- Hnames. reflexivity. }
    rewrite Hschema. unfold execute_tool.
    destruct (Py.dict_get n (_tools registry)) as [f|] eqn:Hget.
    + split.
      * intros _. apply dict_get_Some_In in Hget.
        change n with (fst (n, f)). apply in_map. exact Hget.
      * intros _ e. apply guarded_call_not_missing.
    + split.
      * intros H. exfalso. apply (H (mkToolNotFoundError n)); reflexivity.
      * intros Hin. apply dict_get_None in Hget. contradiction.
  - intros rs1 r rs2 kw -> Hrs2. unfold execute_tool.
    subst registry. unfold register_all.
    rewrite foldl_app. simpl. rewrite foldl_register_other by exact Hrs2.
    unfold register at 1, register_tool. cbn [_tools].
    rewrite dict_get_set_eq. reflexivity.
Qed.

Lemma registry_consistency_witness :
  execute_tool (register_all Examples.overwriting) "save_note" []
  = Ok (Py.VStr "new").
Proof.
  refine (proj2 (proj2 (proj2 (registry_consistency Examples.overwriting)))
            [_; _] (Examples.plain "save_note" _) [] [] eq_refl _).
  constructor.
Defined.

End RegistryConsistency.

(** ** How the records of a turn grow *)

Section Growth.
Import Exceptions Llm Conversation Tools Agent.

Lemma extends_by_refl {A} (P : A -> Prop) (l : list A) : extends_by P l l.
Proof. exists []. rewrite app_nil_r. split; [reflexivity|constructor]. Qed.

Lemma extends_by_trans {A} (P : A -> Prop) (l1 l2 l3 : list A) :
  extends_by P l1 l2 -> extends_by P l2 l3 -> extends_by P l1 l3.
Proof.
  intros (r1 & -> & H1) (r2 & -> & H2). exists (r1 ++ r2).
  rewrite app_assoc. split; [reflexivity|]. apply Forall_app. tauto.
Qed.

Lemma extends_by_snoc {A} (P : A -> Prop) (l : list A) (x : A) :
  P x -> extends_by P l (l ++ [x]).
Proof. intros Hx. exists [x]. split; [reflexivity|]. repeat constructor. exact Hx. Qed.

Lemma grows_refl (s : State) : grows s s.
Proof. repeat split; apply extends_by_refl. Qed.

Lemma grows_trans (s1 s2 s3 : State) : grows s1 s2 -> grows s2 s3 -> grows s1 s3.
Proof.
  intros (A1 & B1 & C1) (A2 & B2 & C2).
  repeat split; eapply extends_by_trans; eassumption.
Qed.

Lemma growing_ret {A} (a : A) : growing (ret a).
Proof. intros s. apply grows_refl. Qed.

Lemma growing_raise {A} (e : exn) : growing (@raise A e).
Proof. intros s. apply grows_refl. Qed.

Lemma growing_bind {A B} (m : M A) (k : A -> M B) :
  growing m -> (forall a, growing (k a)) -> growing (bind m k).
Proof.
  intros Hm Hk s. unfold bind. specialize (Hm s).
  destruct (m s) as [[a|e] s']; simpl in *; [|exact Hm].
  eapply grows_trans; [exact Hm|apply Hk].
Qed.

Lemma growing_try_except {A} (body : M A)
    (clauses : list (exn_class * (exn -> M A))) :
  growing body ->
  Forall (fun c => forall e, growing (snd c e)) clauses ->
  growing (try_except body clauses).
Proof.
  intros Hb Hc s. unfold try_except. specialize (Hb s).
  destruct (body s) as [[a|e] s']; simpl in *; [exact Hb|].
  destruct (List.find _ clauses) as [[c handler]|] eqn:Hfind; [|exact Hb].
  apply find_some in Hfind as [Hin _].
  rewrite Forall_forall in Hc.
  eapply grows_trans; [exact Hb|].
  apply (Hc (c, handler)). apply list_elem_of_In. exact Hin.
Qed.

Variable env : Env.

Lemma growing_add_message (role content : string)
    (tool_calls : option (list ToolCall)) (tool_name : option string) :
  role <> "error" ->
  growing (conversation_add_message env role content tool_calls tool_name).
Proof.
  intros Hrole s. repeat split; simpl.
  - apply extends_by_refl.
  - apply extends_by_refl.
  - apply extends_by_snoc. exact Hrole.
Qed.

Lemma growing_llm_chat (messages : list context_message) :
  growing (llm_chat env messages None).
Proof.
  intros s. repeat split; simpl.
  - apply extends_by_snoc. reflexivity.
  - apply extends_by_refl.
  - apply extends_by_refl.
Qed.

Lemma growing_registry_execute_tool (n : string) (arguments : Py.kwargs) :
  growing (registry_execute_tool env n arguments).
Proof.
  intros s. repeat split; simpl.
  - apply extends_by_refl.
  - apply extends_by_snoc. exact I.
  - apply extends_by_refl.
Qed.

Lemma growing_execute_one (tool_call : ToolCall) :
  growing (execute_one env tool_call).
Proof.
  unfold execute_one. apply growing_try_except.
  - destruct (tool_name_of tool_call) as [n|]; [|apply growing_raise].
    destruct (Py.truthy n); [|apply growing_raise].
    apply growing_bind; [|intros; apply growing_ret].
    apply growing_try_except; [apply growing_registry_execute_tool|].
    constructor; [|constructor]. intros e. apply growing_raise.
  - constructor; [|constructor]. intros e. apply growing_ret.
Qed.

Lemma growing_execute_tools (tool_calls : list ToolCall) :
  growing (_execute_tools env tool_calls).
Proof.
  induction tool_calls as [|c cs IH]; simpl; [apply growing_ret|].
  apply growing_bind; [apply growing_execute_one|]. intros r.
  apply growing_bind; [exact IH|]. intros rs. apply growing_ret.
Qed.

Lemma growing_add_tool_results (tool_results context_messages : list context_message) :
  growing (add_tool_results env tool_results context_messages).
Proof.
  revert context_messages.
  induction tool_results as [|r rs IH]; intros ctx; simpl; [apply growing_ret|].
  apply growing_bind; [apply growing_add_message; discriminate|].
  intros _. apply IH.
Qed.

Lemma growing_handle_tool_calls (depth : nat) (response : LLMResponse)
    (context_messages : list context_message) (tools_schema : list ToolDef) :
  growing (_handle_tool_calls env depth response context_messages tools_schema).
Proof.
  revert response context_messages.
  induction depth as [|depth IH]; intros response ctx; simpl;
    [apply growing_raise|].
  apply growing_bind; [apply growing_add_message; discriminate|]. intros _.
  apply growing_bind; [apply growing_execute_tools|]. intros results.
  apply growing_bind; [apply growing_add_tool_results|]. intros ctx'.
  apply growing_bind; [apply growing_llm_chat|]. intros final.
  destruct (has_tool_calls final); [apply IH|].
  apply growing_bind; [apply growing_add_message; discriminate|].
  intros _. apply growing_ret.
Qed.

(** From the first request on, the body of a turn only lets the records
    grow. *)
Lemma process_message_try_grows (user_input : string) (s : State) :
  grows (after_first_request env user_input s)
        (snd (process_message_try env user_input s)).
Proof.
  unfold process_message_try, bind, conversation_add_message, get_state,
    llm_chat. fold (after_first_request env user_input s).
  destruct (chat env _ _ _) as [response|e]; [|apply grows_refl].
  destruct (has_tool_calls response).
  - apply growing_handle_tool_calls.
  - simpl. apply (growing_add_message "assistant"). discriminate.
Qed.

(** The two [except] clauses of [process_message] as one case analysis. *)
Lemma process_message_unfold (user_input : string) (s : State) :
  process_message env user_input s
  = match process_message_try env user_input s with
    | (Ok text, s') => (Ok text, s')
    | (Raise e, s') =>
        (Ok (error_text e),
         with_message env "error" (error_text e) None None s')
    end.
Proof.
  unfold process_message, try_except.
  destruct (process_message_try env user_input s) as [[text|e] s'];
    [reflexivity|].
  unfold error_text. simpl.
  destruct (isinstance e LLMError); [reflexivity|].
  rewrite isinstance_Exception. reflexivity.
Qed.

(** No exception leaves [process_message]. *)
Lemma process_message_returns (user_input : string) (s : State) :
  exists text s', process_message env user_input s = (Ok text, s').
Proof.
  rewrite process_message_unfold.
  destruct (process_message_try env user_input s) as [[text|e] s']; eauto.
Qed.

End Growth.

(** ** The turn *)

Section Turn.
Import Exceptions Llm Conversation Tools Agent.

Lemma contains_app_r (w pre s : string) :
  Py.contains w s = true -> Py.contains w (pre +:+ s) = true.
Proof.
  intros H. induction pre as [|a pre IH]; [exact H|].
  change (Py.contains w (String a (pre +:+ s)) = true).
  cbn [Py.contains]. rewrite IH. apply orb_true_r.
Qed.

Lemma contains_self (w : string) : Py.contains w w = true.
Proof.
  apply contains_prefix. induction w as [|a w IH]; [reflexivity|].
  simpl. destruct (Ascii.ascii_dec a a); [exact IH|congruence].
Qed.

Variable env : Env.

(** C8. The first request of a turn carries the tools schema of the
    registry; every later request of the turn carries none. *)
Theorem tools_offered_on_first_call_only (user_input : string) (s : State) :
  exists rest,
    chat_calls (snd (process_message env user_input s))
    = chat_calls s
      ++ (get_context_messages (max_history env)
            (build_system_prompt env (registry env))
            (history (with_message env "user" user_input None None s)),
          Some (get_tools_schema (registry env))) :: rest
    /\ Forall no_tools rest.
Proof.
  destruct (process_message_try_grows env user_input s)
    as ((rest & Hrest & Hnone) & _ & _).
  exists rest. split; [|exact Hnone].
  rewrite process_message_unfold.
  destruct (process_message_try env user_input s) as [[text|e] s'];
    simpl in *; rewrite Hrest, <- app_assoc; reflexivity.
Qed.


End Turn.

(** ** Dispatching a batch of tool calls *)

Section Dispatch.
Import Exceptions Llm Conversation Tools Agent.

Variable env : Env.

Lemma guarded_call_raise (n : string) (f : Function) (kw : Py.kwargs) (e : exn) :
  f_call f kw = Raise e ->
  exists w, guarded_call n f kw = Raise w
            /\ msg w = failure_text n e
            /\ isinstance w ToolNotFoundError = false.
Proof.
  intros Hcall. unfold guarded_call, failure_text. rewrite Hcall.
  destruct (isinstance e TypeError).
  - eexists. split; [reflexivity|]. split; reflexivity.
  - rewrite isinstance_Exception.
    eexists. split; [reflexivity|]. split; reflexivity.
Qed.

(** One request for a registered tool: the handler is called once with the
    arguments of the request, and its value or its failure becomes the
    content of the result. *)
Lemma execute_one_found (c : ToolCall) (n : string) (f : Function) (s : State) :
  tool_name_of c = Some n ->
  Py.truthy n = true ->
  Py.dict_get n (_tools (registry env)) = Some f ->
  execute_one env c s
  = (Ok (tool_result
           match f_call f (arguments_of c) with
           | Ok v => Py.str v
           | Raise e => "Tool execution failed: " +:+ failure_text n e
           end n),
     with_executed n (arguments_of c) s).
Proof.
  intros Hname Htruthy Hget.
  unfold execute_one, try_except, bind, registry_execute_tool, execute_tool.
  rewrite Hname, Htruthy, Hget.
  destruct (f_call f (arguments_of c)) as [v|e] eqn:Hcall.
  - unfold guarded_call. rewrite Hcall. reflexivity.
  - destruct (guarded_call_raise n f (arguments_of c) e Hcall)
      as (w & -> & Hmsg & Hnf).
    cbn [List.find fst]. rewrite Hnf.
    cbn [List.find fst]. rewrite isinstance_Exception.
    unfold ret, or_unknown. rewrite Htruthy, Hmsg. reflexivity.
Qed.




End Dispatch.

Section TurnExamples.
Import Exceptions Llm Conversation Tools Agent.




End TurnExamples.

(** ** The snapshot of the log *)

Section Snapshot.
Import Conversation Heap.

Lemma read_entries_ext (st st' : Store) (items : list ref) :
  (forall r, read_entry st' r = read_entry st r) ->
  read_entries st' items = read_entries st items.
Proof.
  intros H. induction items as [|r rs IH]; simpl; [reflexivity|].
  rewrite H, IH. reflexivity.
Qed.

Lemma fresh_not_stored (st : Store) : st !! fresh (dom st) = None.
Proof. apply not_elem_of_dom. apply is_fresh. Qed.

(** Operations through [l] change the object at [l] only, which stays a
    list. *)
Lemma mutate_all_frame (l : ref) (ops : list list_op) (st st' : Store) :
  mutate_all l ops st = Some st' ->
  (forall r, r <> l -> st' !! r = st !! r)
  /\ (forall items, st !! l = Some (OList items) ->
                    exists items', st' !! l = Some (OList items')).
Proof.
  revert st. induction ops as [|op ops IH]; intros st; simpl.
  - intros [= <-]. split; [reflexivity|eauto].
  - unfold mutate_list.
    destruct (st !! l) as [[items|m]|] eqn:Hl; try discriminate.
    destruct (apply_list_op op items) as [items'|]; [|discriminate].
    intros Hrest. apply IH in Hrest as [Hframe Hlist]. split.
    + intros r Hr. rewrite Hframe by exact Hr.
      apply lookup_insert_ne. congruence.
    + intros _ _. apply (Hlist items'). apply lookup_insert_eq.
Qed.



(** The copy is shallow: the slots of both lists refer to the same message
    objects, so a change made to a message through the snapshot shows in
    the log of the manager. *)
Lemma snapshot_shares_entries :
  exists snapshot st' st'',
    get_history Examples.manager Examples.two_messages = Some (snapshot, st')
    /\ set_content snapshot 0 "changed" st' = Some st''
    /\ content <$> (read_list st'' (history Examples.manager) ≫= head)
       = Some "changed".
Proof. do 3 eexists. repeat split; vm_compute; reflexivity. Qed.

End Snapshot.

(** ** More on the conversation log *)

Section LogFacts.
Import Conversation.

(** For a window that is not negative, the log after an append ends with
    the entry. *)
Lemma append_and_trim_snoc (max_history : Z) (m : message)
    (history : list message) :
  (0 <= max_history)%Z ->
  exists l, append_and_trim max_history m history = l ++ [m].
Proof.
  intros Hmh. unfold append_and_trim.
  destruct (_ <? _)%Z; [|eauto].
  destruct (Z.eq_dec max_history 0) as [->|Hne].
  - rewrite slice_from_zero, app_assoc. eauto.
  - rewrite slice_from_neg by lia. unfold last_n.
    rewrite drop_app_le by (rewrite length_app; simpl; lia).
    rewrite app_assoc. eauto.
Qed.

(** [add_message], lines 82-102: for a window that is not negative the
    entry just added is the last entry of the log, trimmed or not, and the
    log is never empty afterwards. *)
Theorem add_message_puts_entry_last (max_history : Z) (now role content : string)
    (tool_calls : option (list Llm.ToolCall)) (tool_name : option string)
    (history : list message) :
  (0 <= max_history)%Z ->
  last (add_message max_history now role content tool_calls tool_name history)
  = Some {| role := role; content := content; timestamp := now;
            tool_calls := tool_calls; tool_name := tool_name |}
  /\ add_message max_history now role content tool_calls tool_name history <> [].
Proof.
  intros Hmh. unfold add_message.
  destruct (append_and_trim_snoc max_history
              {| role := role; content := content; timestamp := now;
                 tool_calls := tool_calls; tool_name := tool_name |}
              history Hmh) as [l ->].
  split; [apply last_snoc|].
  destruct l; discriminate.
Qed.

Lemma add_message_puts_entry_last_witness :
  last (add_message 10 "t" "user" "hello" None None Examples.mixed_history)
  = Some {| role := "user"; content := "hello"; timestamp := "t";
            tool_calls := None; tool_name := None |}.
Proof.
  refine (proj1 (add_message_puts_entry_last 10 "t" "user" "hello" None None
                   Examples.mixed_history _)).
  lia.
Defined.

Lemma filter_system_idem (l : list message) :
  List.filter is_system (List.filter is_system l) = List.filter is_system l.
Proof.
  induction l as [|x l IH]; simpl; [reflexivity|].
  destruct (is_system x) eqn:E; simpl; rewrite ?E, IH; reflexivity.
Qed.

Lemma filter_other_of_system (l : list message) :
  List.filter (fun m => negb (is_system m)) (List.filter is_system l) = [].
Proof.
  induction l as [|x l IH]; simpl; [reflexivity|].
  destruct (is_system x) eqn:E; simpl; rewrite ?E; exact IH.
Qed.

(** [add_message], lines 97-102: below the threshold the log is the old log
    plus the entry; above it the log has as many entries as there are
    system entries plus [max_history]; so a log without system entries,
    once within [2 * max_history], stays within it. *)
Theorem append_and_trim_length (max_history : Z) (m : message)
    (history : list message) :
  (1 <= max_history)%Z ->
  let trimmed := append_and_trim max_history m history in
  ((Z.of_nat (length history + 1) <= 2 * max_history)%Z ->
   trimmed = history ++ [m])
  /\ ((2 * max_history < Z.of_nat (length history + 1))%Z ->
      length trimmed
      = (length (List.filter is_system (history ++ [m]))
         + Z.to_nat max_history)%nat)
  /\ (Forall (fun x => is_system x = false) (history ++ [m]) ->
      (Z.of_nat (length history) <= 2 * max_history)%Z ->
      (Z.of_nat (length trimmed) <= 2 * max_history)%Z).
Proof.
  intros Hmh trimmed. subst trimmed. unfold append_and_trim.
  rewrite length_app. cbn [length].
  destruct (Z.ltb_spec (max_history * 2) (Z.of_nat (length history + 1)))
    as [Hlt|Hge].
  - split; [lia|]. split.
    + intros _. rewrite length_app, slice_from_neg by lia.
      rewrite length_last_n by (rewrite length_app; simpl; lia). reflexivity.
    + intros Hns _. rewrite filter_system_none by exact Hns.
      cbn [app]. rewrite slice_from_neg by lia.
      rewrite length_last_n by (rewrite length_app; simpl; lia). lia.
  - split; [reflexivity|]. split; [lia|].
    intros _ _. rewrite length_app. simpl. lia.
Qed.

Lemma append_and_trim_length_witness :
  (Z.of_nat (length (append_and_trim 10 (Examples.entry "user" "next")
                       (Examples.user_messages 20)))
   <= 2 * 10)%Z.
Proof.
  refine (proj2 (proj2 (append_and_trim_length 10 (Examples.entry "user" "next")
                          (Examples.user_messages 20) _)) _ _).
  - lia.
  - repeat constructor.
  - simpl. lia.
Defined.

(** [add_message], lines 100-102: when the trim fires, the system entries
    of the recent window are kept twice, once by [system_msgs] and once by
    [recent_msgs]; the other entries survive only inside the window. *)
Theorem trim_keeps_recent_system_twice (max_history : Z) (m : message)
    (history : list message) :
  (1 <= max_history)%Z ->
  (2 * max_history < Z.of_nat (length history + 1))%Z ->
  let full := history ++ [m] in
  let trimmed := append_and_trim max_history m history in
  List.filter is_system trimmed
  = List.filter is_system full
    ++ List.filter is_system (last_n (Z.to_nat max_history) full)
  /\ List.filter (fun x => negb (is_system x)) trimmed
     = List.filter (fun x => negb (is_system x))
         (last_n (Z.to_nat max_history) full).
Proof.
  intros Hmh Hlt full trimmed. subst trimmed full. unfold append_and_trim.
  rewrite length_app. cbn [length].
  destruct (Z.ltb_spec (max_history * 2) (Z.of_nat (length history + 1)));
    [|lia].
  rewrite slice_from_neg by lia. split.
  - rewrite (List.filter_app _ (List.filter is_system (history ++ [m]))).
    rewrite filter_system_idem. reflexivity.
  - rewrite (List.filter_app _ (List.filter is_system (history ++ [m]))).
    rewrite filter_other_of_system. reflexivity.
Qed.

Lemma trim_keeps_recent_system_twice_witness :
  List.filter is_system
    (append_and_trim 1 (Examples.entry "system" "rules")
       [Examples.entry "user" "a"; Examples.entry "assistant" "b"])
  = [Examples.entry "system" "rules"; Examples.entry "system" "rules"].
Proof.
  refine (proj1 (trim_keeps_recent_system_twice 1
                   (Examples.entry "system" "rules")
                   [Examples.entry "user" "a"; Examples.entry "assistant" "b"]
                   _ _)).
  - lia.
  - simpl. lia.
Defined.

Lemma length_omap_context_of (l : list message) :
  (length (omap context_of l) <= length l)%nat.
Proof.
  induction l as [|x l IH]; [reflexivity|].
  cbn [omap list_omap]. destruct (context_of x); simpl; lia.
Qed.

(** [get_context_messages], lines 104-121: the context starts with the
    fresh system prompt and holds at most [max_history] further entries,
    and never more than the log has. *)
Theorem context_length_bound (max_history : Z) (system_prompt : string)
    (history : list message) :
  (0 < max_history)%Z ->
  let context := get_context_messages max_history system_prompt history in
  head context
  = Some {| c_role := "system"; c_content := system_prompt;
            c_tool_calls := None; c_tool_name := None |}
  /\ (length context <= 1 + Z.to_nat max_history)%nat
  /\ (length context <= 1 + length history)%nat.
Proof.
  intros Hmh context. subst context. unfold get_context_messages.
  split; [reflexivity|]. cbn [length].
  rewrite slice_from_neg by exact Hmh.
  pose proof (length_omap_context_of (last_n (Z.to_nat max_history) history)).
  unfold last_n in *. rewrite length_drop in *. lia.
Qed.

Lemma context_length_bound_witness :
  (length (get_context_messages 2 "prompt" Examples.mixed_history) <= 3)%nat.
Proof.
  refine (proj1 (proj2 (context_length_bound 2 "prompt" Examples.mixed_history _))).
  lia.
Defined.

(** [process_message], lines 147-151: the context built right after the
    user entry was added ends with that entry, whatever the log held. *)
Theorem context_ends_with_user_input (max_history : Z)
    (now system_prompt user_input : string) (history : list message) :
  (1 <= max_history)%Z ->
  last (get_context_messages max_history system_prompt
          (add_message max_history now "user" user_input None None history))
  = Some {| c_role := "user"; c_content := user_input;
            c_tool_calls := None; c_tool_name := None |}.
Proof.
  intros Hmh. unfold add_message.
  destruct (append_and_trim_snoc max_history
              {| role := "user"; content := user_input; timestamp := now;
                 tool_calls := None; tool_name := None |}
              history ltac:(lia)) as [l ->].
  unfold get_context_messages. rewrite slice_from_neg by lia. unfold last_n.
  rewrite drop_app_le by (rewrite length_app; simpl; lia).
  rewrite omap_app. cbn. rewrite app_comm_cons. apply last_snoc.
Qed.

Lemma context_ends_with_user_input_witness :
  last (get_context_messages 10 "prompt"
          (add_message 10 "t" "user" "hello" None None Examples.mixed_history))
  = Some {| c_role := "user"; c_content := "hello";
            c_tool_calls := None; c_tool_name := None |}.
Proof.
  refine (context_ends_with_user_input 10 "t" "prompt" "hello"
            Examples.mixed_history _).
  lia.
Defined.

End LogFacts.

(** ** More on the registry *)

Section RegistryFacts.
Import Exceptions Tools.

Lemma dict_mem_In {V} (k : string) (d : Py.dict V) :
  Py.dict_mem k d = true <-> In k (Py.dict_keys d).
Proof.
  unfold Py.dict_mem. destruct (Py.dict_get k d) eqn:E.
  - split; [|reflexivity]. intros _. apply dict_get_Some_In in E.
    change k with (fst (k, v)). apply in_map. exact E.
  - split; [discriminate|]. intros H. apply dict_get_None in E. contradiction.
Qed.

Lemma mem_In (x : string) (xs : list string) : Py.mem x xs = true <-> In x xs.
Proof.
  unfold Py.mem. rewrite existsb_exists. split.
  - intros (y & Hy & E). apply String.eqb_eq in E. subst. exact Hy.
  - intros H. exists x. split; [exact H|apply String.eqb_refl].
Qed.

(** The keys after an assignment: unchanged for a key that is there, one
    more at the end for a new key. *)
Lemma dict_keys_set_cases {V} (k : string) (v : V) (d : Py.dict V) :
  Py.dict_keys (Py.dict_set k v d)
  = if Py.mem k (Py.dict_keys d) then Py.dict_keys d else Py.dict_keys d ++ [k].
Proof.
  induction d as [|[k' v'] d IH]; [reflexivity|].
  cbn [Py.dict_set Py.dict_keys map fst Py.mem existsb] in *.
  destruct (String.eqb k k') eqn:E; cbn [orb map fst].
  - apply String.eqb_eq in E. subst. reflexivity.
  - fold (Py.dict_keys d) in *. fold (Py.mem k (Py.dict_keys d)) in *.
    unfold Py.dict_keys in *. rewrite IH.
    destruct (Py.mem k (map fst d)); reflexivity.
Qed.

Lemma first_seen_snoc (names : list string) (n : string) :
  first_seen (names ++ [n])
  = if Py.mem n (first_seen names) then first_seen names
    else first_seen names ++ [n].
Proof. unfold first_seen. rewrite foldl_app. reflexivity. Qed.

Lemma first_seen_spec (names : list string) :
  NoDup (first_seen names) /\ forall n, In n (first_seen names) <-> In n names.
Proof.
  induction names as [|x names [IHnd IHin]] using rev_ind.
  - split; [constructor|reflexivity].
  - rewrite first_seen_snoc.
    destruct (Py.mem x (first_seen names)) eqn:E.
    + split; [exact IHnd|]. intros n. rewrite in_app_iff, IHin. simpl.
      apply mem_In, IHin in E. intuition congruence.
    + assert (~ In x (first_seen names)) as Hx
        by (rewrite <- mem_In, E; discriminate).
      split.
      * apply NoDup_app. split; [exact IHnd|]. split.
        -- intros y Hy Hy'. apply list_elem_of_In in Hy.
           apply list_elem_of_In in Hy'. destruct Hy' as [<-|[]]. tauto.
        -- repeat constructor. set_solver.
      * intros n. rewrite !in_app_iff, IHin. reflexivity.
Qed.

Lemma list_tools_register_all (rs : list Registration) :
  list_tools (register_all rs) = first_seen (map r_name rs).
Proof.
  induction rs as [|r rs IH] using rev_ind; [reflexivity|].
  rewrite register_all_snoc, map_app. cbn [map]. rewrite first_seen_snoc.
  unfold list_tools, register, register_tool. cbn [_tools].
  rewrite dict_keys_set_cases. unfold list_tools in IH. rewrite IH.
  reflexivity.
Qed.

(** [register_tool] and [list_tools], lines 35-63 and 160-162: the names
    a registry lists are the registered names in the order of their first
    registration, each once; registering a listed name again leaves the
    list as it is. *)
Theorem list_tools_first_seen (rs : list Registration) :
  list_tools (register_all rs) = first_seen (map r_name rs)
  /\ NoDup (list_tools (register_all rs))
  /\ (forall n, In n (list_tools (register_all rs)) <-> In n (map r_name rs))
  /\ (forall r, In (r_name r) (map r_name rs) ->
        list_tools (register_all (rs ++ [r])) = list_tools (register_all rs)).
Proof.
  pose proof (list_tools_register_all rs) as H.
  destruct (first_seen_spec (map r_name rs)) as [Hnd Hin].
  rewrite H. split; [reflexivity|]. split; [exact Hnd|]. split; [exact Hin|].
  intros r Hr. rewrite <- H, register_all_snoc.
  unfold list_tools, register, register_tool. cbn [_tools].
  rewrite dict_keys_set_cases.
  fold (list_tools (register_all rs)). rewrite H.
  apply Hin, mem_In in Hr. rewrite Hr. reflexivity.
Qed.

Lemma list_tools_first_seen_witness :
  list_tools (register_all (Examples.overwriting
                            ++ [Examples.plain "search_note"
                                  (Examples.constant_tool "again" Py.VNone)]))
  = ["save_note"; "search_note"].
Proof.
  refine (proj2 (proj2 (proj2 (list_tools_first_seen Examples.overwriting)))
            (Examples.plain "search_note" _) _).
  simpl. tauto.
Defined.

Lemma foldl_register_other_info (rs : list Registration) (self : ToolRegistry)
    (n : string) :
  Forall (fun x => r_name x <> n) rs ->
  Py.dict_get n (_tool_info (foldl register self rs))
  = Py.dict_get n (_tool_info self).
Proof.
  revert self. induction rs as [|r rs IH]; intros self Hrs; [reflexivity|].
  apply Forall_cons in Hrs as [Hr Hrs]. simpl. rewrite IH by exact Hrs.
  unfold register, register_tool. cbn [_tool_info].
  apply dict_get_set_ne. exact Hr.
Qed.

Lemma schema_names (rs : list Registration) :
  map td_name (get_tools_schema (register_all rs)) = list_tools (register_all rs).
Proof.
  destruct (register_all_invariant rs) as (Hkeys & Hnames & _).
  unfold get_tools_schema, list_tools. rewrite map_map. simpl.
  rewrite Hkeys, <- Hnames. reflexivity.
Qed.

(** [register_tool] and [get_tools_schema], lines 35-63 and 177-190: the
    payload lists the tools in the order of [list_tools], each as a
    "function"; the entry of a name carries the metadata of the last
    registration under that name alone: its description, or the docstring,
    or "<name>()"; its category, or the inferred one; its schema, or the
    generated one. *)
Theorem tools_schema_reflects_last_registration (rs rs1 rs2 : list Registration)
    (r : Registration) :
  rs = rs1 ++ r :: rs2 ->
  Forall (fun x => r_name x <> r_name r) rs2 ->
  let registry := register_all rs in
  map td_name (get_tools_schema registry) = list_tools registry
  /\ Forall (fun d => td_type d = "function") (get_tools_schema registry)
  /\ exists info,
       Py.dict_get (r_name r) (_tool_info registry) = Some info
       /\ name info = r_name r
       /\ function info = r_function r
       /\ description info
          = match r_description r, f_doc (r_function r) with
            | Some d, _ => d
            | None, Some doc => if Py.truthy doc then doc else r_name r +:+ "()"
            | None, None => r_name r +:+ "()"
            end
       /\ category info = default (_auto_categorize (r_name r)) (r_category r)
       /\ schema info
          = default (_auto_generate_schema (r_function r)) (r_schema r)
       /\ In {| td_type := "function"; td_name := r_name r;
                td_description := description info;
                td_parameters := schema info |}
             (get_tools_schema registry).
Proof.
  intros -> Hrs2 registry.
  split; [apply schema_names|]. split.
  { unfold get_tools_schema. apply Forall_forall. intros d Hd.
    apply list_elem_of_In, in_map_iff in Hd as (info & <- & _). reflexivity. }
  assert (Hget : exists info,
            Py.dict_get (r_name r) (_tool_info registry) = Some info
            /\ info = {| name := r_name r; function := r_function r;
                         description :=
                           match r_description r, f_doc (r_function r) with
                           | Some d, _ => d
                           | None, Some doc =>
                               if Py.truthy doc then doc else r_name r +:+ "()"
                           | None, None => r_name r +:+ "()"
                           end;
                         category :=
                           default (_auto_categorize (r_name r)) (r_category r);
                         schema :=
                           default (_auto_generate_schema (r_function r))
                                   (r_schema r) |}).
  { subst registry. unfold register_all. rewrite foldl_app. simpl.
    rewrite foldl_register_other_info by exact Hrs2.
    unfold register at 1, register_tool. cbn [_tool_info].
    rewrite dict_get_set_eq. eexists. split; [reflexivity|].
    destruct (r_description r), (r_category r), (r_schema r); reflexivity. }
  destruct Hget as (info & Hget & Hinfo). exists info.
  split; [exact Hget|]. rewrite Hinfo at 1 2 3 4 5. cbn [name function description category schema].
  do 5 (split; [reflexivity|]).
  unfold get_tools_schema. apply in_map_iff. exists info. split.
  - rewrite Hinfo. reflexivity.
  - apply dict_get_Some_In in Hget.
    change info with (snd (r_name r, info)). apply in_map. exact Hget.
Qed.

Lemma tools_schema_reflects_last_registration_witness :
  map td_name (get_tools_schema (register_all Examples.overwriting))
  = ["save_note"; "search_note"].
Proof.
  refine (proj1 (tools_schema_reflects_last_registration Examples.overwriting
                   [_; _] [] (Examples.plain "save_note" _) eq_refl _)).
  constructor.
Defined.

(** [get_tool], lines 140-144: it answers with the callable of the last
    registration under the name, the one [execute_tool] calls, and raises
    [ToolNotFoundError] with the text "Tool '<name>' not found" exactly for
    the names [list_tools] does not show. *)
Theorem get_tool_last_registered (rs : list Registration) :
  let registry := register_all rs in
  (forall rs1 r rs2,
     rs = rs1 ++ r :: rs2 ->
     Forall (fun x => r_name x <> r_name r) rs2 ->
     get_tool registry (r_name r) = Ok (r_function r))
  /\ (forall n f kw,
        get_tool registry n = Ok f ->
        execute_tool registry n kw = guarded_call n f kw)
  /\ (forall n,
        ~ In n (list_tools registry)
        <-> get_tool registry n
            = Raise {| cls := ToolNotFoundError;
                       msg := "Tool '" +:+ n +:+ "' not found" |}).
Proof.
  intros registry. split; [|split].
  - intros rs1 r rs2 -> Hrs2. unfold get_tool. subst registry.
    unfold register_all. rewrite foldl_app. simpl.
    rewrite foldl_register_other by exact Hrs2.
    unfold register at 1, register_tool. cbn [_tools].
    rewrite dict_get_set_eq. reflexivity.
  - intros n f kw. unfold get_tool, execute_tool.
    destruct (Py.dict_get n (_tools registry)); [|discriminate].
    intros [= ->]. reflexivity.
  - intros n. unfold get_tool, list_tools.
    destruct (Py.dict_get n (_tools registry)) eqn:E.
    + split; [|discriminate]. intros H. exfalso. apply H.
      apply dict_get_Some_In in E.
      change n with (fst (n, f)). apply in_map. exact E.
    + split; [reflexivity|]. intros _. apply dict_get_None. exact E.
Qed.

Lemma get_tool_last_registered_witness :
  get_tool (register_all Examples.overwriting) "save_note"
  = Ok (Examples.constant_tool "new" (Py.VStr "new")).
Proof.
  refine (proj1 (get_tool_last_registered Examples.overwriting)
            [_; _] (Examples.plain "save_note" _) [] eq_refl _).
  constructor.
Defined.

Lemma isinstance_tool_errors (n text : string) :
  isinstance (mkToolNotFoundError n) ToolError = true
  /\ isinstance (mkToolValidationError n text) ToolError = true
  /\ isinstance (mkToolError text) ToolError = true.
Proof. repeat split. Qed.



Lemma group_fold (infos : list ToolInfo) (acc : Py.dict (list ToolInfo))
    (c : string) :
  Py.dict_get c (foldl group_step acc infos)
  = match Py.dict_get c acc, List.filter (in_category c) infos with
    | None, [] => None
    | o, l => Some (default [] o ++ l)
    end.
Proof.
  revert acc. induction infos as [|x infos IH]; intros acc.
  - simpl. destruct (Py.dict_get c acc); [rewrite app_nil_r|]; reflexivity.
  - cbn [foldl List.filter]. rewrite IH. unfold group_step, in_category.
    destruct (String.eqb_spec (category x) c) as [->|Hne].
    + rewrite dict_get_set_eq.
      destruct (Py.dict_get c acc) as [old|]; simpl;
        rewrite <- ?app_assoc; reflexivity.
    + rewrite dict_get_set_ne by exact Hne. reflexivity.
Qed.

Lemma sum_lengths_set {V} (d : Py.dict (list V)) (k : string) (v : list V) :
  (list_sum (map (fun p => length (snd p)) (Py.dict_set k v d))
   + length (default [] (Py.dict_get k d))
   = list_sum (map (fun p => length (snd p)) d) + length v)%nat.
Proof.
  induction d as [|[k' v'] d IH]; simpl; [lia|].
  destruct (String.eqb k k'); simpl; lia.
Qed.

Lemma group_fold_total (infos : list ToolInfo) (acc : Py.dict (list ToolInfo)) :
  list_sum (map (fun p => length (snd p)) (foldl group_step acc infos))
  = (list_sum (map (fun p => length (snd p)) acc) + length infos)%nat.
Proof.
  revert acc. induction infos as [|x infos IH]; intros acc; simpl; [lia|].
  rewrite IH. unfold group_step.
  pose proof (sum_lengths_set acc (category x)
                (default [] (Py.dict_get (category x) acc) ++ [x])) as H.
  rewrite length_app in H. simpl in H. lia.
Qed.

Lemma group_fold_nonempty (infos : list ToolInfo) (acc : Py.dict (list ToolInfo)) :
  Forall (fun p => snd p <> []) acc ->
  Forall (fun p => snd p <> []) (foldl group_step acc infos).
Proof.
  revert acc. induction infos as [|x infos IH]; intros acc Hacc; [exact Hacc|].
  simpl. apply IH. unfold group_step.
  generalize (default [] (Py.dict_get (category x) acc)). intros old.
  induction Hacc as [|[k v] d Hk Hd IHd]; simpl.
  - repeat constructor. simpl. destruct old; discriminate.
  - destruct (String.eqb (category x) k).
    + constructor; [|assumption]. simpl. destruct old; discriminate.
    + constructor; assumption.
Qed.

(** [get_tools_by_category], lines 164-171: the group of a category holds
    exactly the tools of that category, in registry order; a category
    without a tool has no group; no group is empty; and the groups together
    hold as many tools as the registry. *)
Theorem tools_grouped_by_category (self : ToolRegistry) :
  let infos := Py.dict_values (_tool_info self) in
  let groups := get_tools_by_category self in
  (forall c,
     Py.dict_get c groups
     = match List.filter (in_category c) infos with
       | [] => None
       | l => Some l
       end)
  /\ Forall (fun p => snd p <> []) groups
  /\ list_sum (map (fun p => length (snd p)) groups) = length infos.
Proof.
  intros infos groups. subst groups. unfold get_tools_by_category.
  change (foldl _ [] (Py.dict_values (_tool_info self)))
    with (foldl group_step [] infos).
  split; [|split].
  - intros c. rewrite group_fold. simpl.
    destruct (List.filter (in_category c) infos); reflexivity.
  - apply group_fold_nonempty. constructor.
  - rewrite group_fold_total. reflexivity.
Qed.

Lemma NoDup_dict_keys_set {V} (k : string) (v : V) (d : Py.dict V) :
  NoDup (Py.dict_keys d) -> NoDup (Py.dict_keys (Py.dict_set k v d)).
Proof.
  intros Hnd. rewrite dict_keys_set_cases.
  destruct (Py.mem k (Py.dict_keys d)) eqn:E; [exact Hnd|].
  apply NoDup_app. split; [exact Hnd|]. split.
  - intros x Hx Hx'. apply list_elem_of_In in Hx.
    apply list_elem_of_In in Hx'. destruct Hx' as [<-|[]].
    apply mem_In in Hx. congruence.
  - repeat constructor. set_solver.
Qed.

(** A dict comprehension [{k: f(v) for k, v in d.items()}] over a dict
    keeps the items in place. *)
Lemma dict_comprehension {V W} (f : V -> W) (d : Py.dict V) (acc : Py.dict W) :
  NoDup (Py.dict_keys acc ++ Py.dict_keys d) ->
  foldl (fun acc '(k, v) => Py.dict_set k (f v) acc) acc d
  = acc ++ map (fun '(k, v) => (k, f v)) d.
Proof.
  revert acc. induction d as [|[k v] d IH]; intros acc Hnd; simpl.
  - rewrite app_nil_r. reflexivity.
  - assert (Hk : ~ In k (Py.dict_keys acc)).
    { apply NoDup_app in Hnd as (_ & H & _). intros Hin.
      apply (H k); [apply list_elem_of_In; exact Hin|]. left. }
    rewrite dict_set_fresh by exact Hk. rewrite IH.
    + rewrite <- app_assoc. reflexivity.
    + unfold Py.dict_keys in *. rewrite map_app, <- app_assoc. exact Hnd.
Qed.

Lemma NoDup_group_keys (infos : list ToolInfo) (acc : Py.dict (list ToolInfo)) :
  NoDup (Py.dict_keys acc) -> NoDup (Py.dict_keys (foldl group_step acc infos)).
Proof.
  revert acc. induction infos as [|x infos IH]; intros acc Hacc; [exact Hacc|].
  simpl. apply IH. unfold group_step. apply NoDup_dict_keys_set. exact Hacc.
Qed.

Lemma NoDup_tool_info_keys (rs : list Registration) :
  NoDup (Py.dict_keys (_tool_info (register_all rs))).
Proof.
  destruct (register_all_invariant rs) as (Hkeys & _ & _). rewrite <- Hkeys.
  fold (list_tools (register_all rs)). rewrite list_tools_register_all.
  apply first_seen_spec.
Qed.

End RegistryFacts.

(** ** Sorting by code point order *)

Section Sorting.
Context {A : Type} (key : A -> string).

Local Abbreviation key_le := (Py.key_le key).

Lemma insert_by_perm (x : A) (l : list A) :
  Permutation (Py.insert_by key x l) (x :: l).
Proof.
  induction l as [|y l IH]; simpl; [reflexivity|].
  destruct (String.leb (key x) (key y)); [reflexivity|].
  rewrite IH. apply perm_swap.
Qed.

Lemma sorted_by_perm (l : list A) : Permutation (Py.sorted_by key l) l.
Proof.
  induction l as [|x l IH]; simpl; [reflexivity|].
  rewrite insert_by_perm. constructor. exact IH.
Qed.

Lemma insert_by_sorted (x : A) (l : list A) :
  Sorted key_le l -> Sorted key_le (Py.insert_by key x l).
Proof.
  induction 1 as [|y l Hl IH Hy]; simpl.
  - repeat constructor.
  - destruct (String.leb (key x) (key y)) eqn:E.
    + constructor; [constructor; assumption|]. constructor. exact E.
    + constructor; [exact IH|].
      assert (Hyx : key_le y x).
      { unfold Py.key_le. destruct (String.leb_total (key x) (key y)); congruence. }
      destruct Hy as [|z l Hz]; simpl.
      * constructor. exact Hyx.
      * destruct (String.leb (key x) (key z)); constructor; assumption.
Qed.

Lemma sorted_by_sorted (l : list A) : Sorted key_le (Py.sorted_by key l).
Proof.
  induction l as [|x l IH]; simpl; [constructor|].
  apply insert_by_sorted. exact IH.
Qed.

End Sorting.

Section LoaderFacts.
Import Tools Loader.

(** [get_tool_summary], lines 95-108 of the loader: the total is the
    number of distinct registered names; the count of a category is the
    number of its tools, and a category without tools has no count; the
    counts add up to the total; the names come out sorted. *)
Theorem tool_summary_counts (rs : list Registration) :
  let registry := register_all rs in
  let summary := get_tool_summary registry in
  total_tools summary = length (first_seen (map r_name rs))
  /\ (forall c,
        Py.dict_get c (tools_by_category summary)
        = match List.filter (in_category c)
                  (Py.dict_values (_tool_info registry)) with
          | [] => None
          | l => Some (length l)
          end)
  /\ list_sum (Py.dict_values (tools_by_category summary)) = total_tools summary
  /\ Permutation (tool_names summary) (list_tools registry)
  /\ Sorted (Py.key_le id) (tool_names summary).
Proof.
  intros registry summary. subst summary registry.
  set (registry := register_all rs).
  assert (Hcomp : tools_by_category (get_tool_summary registry)
                  = map (fun '(k, v) => (k, length v))
                      (get_tools_by_category registry)).
  { unfold get_tool_summary. cbn [tools_by_category].
    rewrite (dict_comprehension (@length ToolInfo)); [reflexivity|].
    simpl. apply NoDup_group_keys. constructor. }
  assert (Hgroups : get_tools_by_category registry
                    = foldl group_step [] (Py.dict_values (_tool_info registry)))
    by reflexivity.
  assert (Hget : forall c,
            Py.dict_get c (get_tools_by_category registry)
            = match List.filter (in_category c)
                      (Py.dict_values (_tool_info registry)) with
              | [] => None
              | l => Some l
              end).
  { intros c. rewrite Hgroups, group_fold. simpl.
    destruct (List.filter _ _); reflexivity. }
  assert (Hsum : list_sum (map (fun p => length (snd p))
                             (get_tools_by_category registry))
                 = length (Py.dict_values (_tool_info registry)))
    by (rewrite Hgroups, group_fold_total; reflexivity).
  destruct (register_all_invariant rs) as (Hkeys & _ & _).
  fold registry in Hkeys.
  split; [|split; [|split; [|split]]].
  - cbn. f_equal. apply list_tools_register_all.
  - intros c. rewrite Hcomp. specialize (Hget c).
    destruct (List.filter _ _) as [|x l].
    + revert Hget. generalize (get_tools_by_category registry).
      intros d. induction d as [|[k v] d IH]; simpl; [reflexivity|].
      destruct (String.eqb c k); [discriminate|exact IH].
    + revert Hget. generalize (get_tools_by_category registry).
      intros d. induction d as [|[k v] d IH]; simpl; [discriminate|].
      destruct (String.eqb c k); [intros [= ->]; reflexivity|exact IH].
  - rewrite Hcomp. unfold Py.dict_values at 1. rewrite map_map.
    cbn [total_tools get_tool_summary]. unfold list_tools.
    rewrite Hkeys.
    replace (length (Py.dict_keys (_tool_info registry)))
      with (length (Py.dict_values (_tool_info registry)))
      by (unfold Py.dict_keys, Py.dict_values; rewrite !length_map; reflexivity).
    rewrite <- Hsum. f_equal. apply map_ext. intros [k v]. reflexivity.
  - apply (sorted_by_perm id).
  - apply (sorted_by_sorted id).
Qed.

End LoaderFacts.

(** ** Names, docstrings and descriptions *)

Section TextFacts.
Import Tools.

Lemma lower_ascii_idem (c : ascii) :
  Py.lower_ascii (Py.lower_ascii c) = Py.lower_ascii c.
Proof. destruct c as [[] [] [] [] [] [] [] []]; reflexivity. Qed.

Lemma lower_idem (s : string) : Py.lower (Py.lower s) = Py.lower s.
Proof.
  induction s as [|c s IH]; simpl; [reflexivity|].
  rewrite lower_ascii_idem, IH. reflexivity.
Qed.

(** [_auto_categorize], lines 65-86: the answer is one of the nine
    categories and depends on the lower-cased name only, so two names that
    differ in case alone get the same category. *)
Theorem auto_categorize_ignores_case (name : string) :
  In (_auto_categorize name) taxonomy
  /\ _auto_categorize (Py.lower name) = _auto_categorize name
  /\ (forall other, Py.lower other = Py.lower name ->
                    _auto_categorize other = _auto_categorize name).
Proof.
  split; [|split].
  - unfold _auto_categorize, taxonomy.
    repeat match goal with
           | |- context [if ?b then _ else _] => destruct b
           end; simpl; tauto.
  - unfold _auto_categorize. rewrite lower_idem. reflexivity.
  - intros other H. unfold _auto_categorize. rewrite H. reflexivity.
Qed.

Lemma auto_categorize_ignores_case_witness :
  _auto_categorize "SAVE_Note" = _auto_categorize "save_note".
Proof.
  refine (proj2 (proj2 (auto_categorize_ignores_case "save_note"))
            "SAVE_Note" eq_refl).
Defined.

Lemma split_on_nonempty (sep : ascii) (s : string) : split_on sep s <> [].
Proof.
  destruct s as [|c s]; simpl; [discriminate|].
  destruct (Ascii.eqb c sep); [discriminate|].
  destruct (split_on sep s); discriminate.
Qed.

Lemma join_cons (sep part : string) (rest : list string) :
  rest <> [] -> Py.join sep (part :: rest) = part +:+ sep +:+ Py.join sep rest.
Proof. destruct rest; [congruence|reflexivity]. Qed.

Lemma contains_char_cons (sep c : ascii) (w : string) :
  Py.contains (String sep EmptyString) (String c w)
  = (Ascii.eqb sep c || Py.contains (String sep EmptyString) w)%bool.
Proof.
  cbn [Py.contains String.prefix].
  destruct (Ascii.ascii_dec sep c) as [->|Hne].
  - rewrite Ascii.eqb_refl. destruct w; reflexivity.
  - destruct (Ascii.eqb_spec sep c); [contradiction|]. reflexivity.
Qed.

(** [function.__doc__.split('\n')], line 120: the pieces are never none,
    none of them holds the separator, and joining them with the separator
    gives the text back. *)
Theorem split_join_round_trip (sep : ascii) (s : string) :
  Py.join (String sep EmptyString) (split_on sep s) = s
  /\ split_on sep s <> []
  /\ Forall (fun piece => Py.contains (String sep EmptyString) piece = false)
       (split_on sep s).
Proof.
  split; [|split; [apply split_on_nonempty|]].
  - induction s as [|c s IH]; [reflexivity|].
    cbn [split_on]. destruct (Ascii.eqb c sep) eqn:E.
    + rewrite join_cons by apply split_on_nonempty. rewrite IH.
      apply Ascii.eqb_eq in E. subst. reflexivity.
    + pose proof (split_on_nonempty sep s) as Hne.
      destruct (split_on sep s) as [|w ws]; [congruence|].
      destruct ws as [|w' ws].
      * simpl in *. congruence.
      * rewrite join_cons by discriminate.
        rewrite join_cons in IH by discriminate.
        rewrite <- IH. reflexivity.
  - induction s as [|c s IH]; [repeat constructor|].
    cbn [split_on]. destruct (Ascii.eqb c sep) eqn:E.
    + constructor; [reflexivity|exact IH].
    + pose proof (split_on_nonempty sep s) as Hne.
      destruct (split_on sep s) as [|w ws]; [congruence|].
      apply Forall_cons in IH as [Hw Hws]. constructor; [|exact Hws].
      rewrite contains_char_cons, Hw. rewrite Ascii.eqb_sym, E. reflexivity.
Qed.

Lemma string_app_cons (x : ascii) (a b : string) :
  String x a +:+ b = String x (a +:+ b).
Proof. reflexivity. Qed.

Lemma string_app_assoc (a b c : string) : (a +:+ b) +:+ c = a +:+ b +:+ c.
Proof.
  induction a as [|x a IH]; [reflexivity|].
  rewrite !string_app_cons, IH. reflexivity.
Qed.













End TextFacts.

(** ** The system prompt *)

Section PromptFacts.
Import Tools Prompt.

Lemma prefix_app_l (w s post : string) :
  String.prefix w s = true -> String.prefix w (s +:+ post) = true.
Proof.
  revert s. induction w as [|a w IH]; intros s H.
  - destruct (s +:+ post); reflexivity.
  - destruct s as [|b s]; [discriminate|].
    rewrite string_app_cons. simpl in *.
    destruct (Ascii.ascii_dec a b); [auto|discriminate].
Qed.

Lemma contains_app_l (w s post : string) :
  Py.contains w s = true -> Py.contains w (s +:+ post) = true.
Proof.
  induction s as [|b s IH].
  - cbn [Py.contains]. rewrite orb_false_r. intros H.
    apply contains_prefix. apply (prefix_app_l w "" post). exact H.
  - cbn [Py.contains]. rewrite string_app_cons. cbn [Py.contains].
    rewrite !orb_true_iff. intros [H|H].
    + left. apply (prefix_app_l w (String b s) post). exact H.
    + right. auto.
Qed.

Lemma contains_join (w sep part : string) (parts : list string) :
  In part parts -> Py.contains w part = true ->
  Py.contains w (Py.join sep parts) = true.
Proof.
  intros Hin Hw. induction parts as [|p parts IH]; [destruct Hin|].
  destruct parts as [|q parts].
  - destruct Hin as [->|[]]. exact Hw.
  - rewrite join_cons by discriminate. destruct Hin as [->|Hin].
    + apply contains_app_l. exact Hw.
    + do 2 apply contains_app_r. apply IH. exact Hin.
Qed.

Lemma dict_get_of_In {V} (k : string) (v : V) (d : Py.dict V) :
  NoDup (Py.dict_keys d) -> In (k, v) d -> Py.dict_get k d = Some v.
Proof. apply dict_get_In_NoDup. Qed.

(** The groups of [get_tools_by_category] as a list of items. *)
Lemma groups_items (self : ToolRegistry) :
  let infos := Py.dict_values (_tool_info self) in
  let groups := get_tools_by_category self in
  NoDup (Py.dict_keys groups)
  /\ (forall c l, In (c, l) groups ->
                  l = List.filter (in_category c) infos /\ l <> [])
  /\ (forall info, In info infos ->
        In (category info, List.filter (in_category (category info)) infos)
           groups).
Proof.
  intros infos groups.
  assert (Hnd : NoDup (Py.dict_keys groups)).
  { subst groups. unfold get_tools_by_category.
    change (foldl _ [] (Py.dict_values (_tool_info self)))
      with (foldl group_step [] infos).
    apply NoDup_group_keys. constructor. }
  assert (Hget : forall c,
            Py.dict_get c groups
            = match List.filter (in_category c) infos with
              | [] => None
              | l => Some l
              end).
  { intros c. subst groups. unfold get_tools_by_category.
    change (foldl _ [] (Py.dict_values (_tool_info self)))
      with (foldl group_step [] infos).
    rewrite group_fold. simpl. destruct (List.filter _ _); reflexivity. }
  split; [exact Hnd|]. split.
  - intros c l Hin. apply (dict_get_of_In c l groups Hnd) in Hin.
    rewrite Hget in Hin.
    destruct (List.filter (in_category c) infos); [discriminate|].
    injection Hin as <-. split; [reflexivity|discriminate].
  - intros info Hin. apply dict_get_Some_In. rewrite Hget.
    destruct (List.filter (in_category (category info)) infos) eqn:E;
      [|reflexivity].
    assert (In info (List.filter (in_category (category info)) infos))
      by (apply filter_In; split; [exact Hin|apply String.eqb_refl]).
    rewrite E in H. destruct H.
Qed.

(** [build_system_prompt], lines 21-67: the overview is made of one section
    per category that has a tool, the categories in sorted order and each
    once, every section listing the tools of its category in registry
    order; so the prompt shows the line "  - <name>: <description>" of
    every registered tool and the title of its category. *)
Theorem system_prompt_lists_every_tool (self : ToolRegistry) :
  let infos := Py.dict_values (_tool_info self) in
  (exists categories,
     Sorted (Py.key_le id) categories
     /\ NoDup categories
     /\ (forall c, In c categories
                   <-> exists info, In info infos /\ category info = c)
     /\ tool_overview self
        = Py.join (newline +:+ newline)
            (map (fun c => tool_section c (List.filter (in_category c) infos))
                 categories))
  /\ forall info, In info infos ->
       Py.contains ("  - " +:+ name info +:+ ": " +:+ description info)
         (build_system_prompt self) = true
       /\ Py.contains
            ("**" +:+ Py.title (Py.replace_char "_" " " (category info))
             +:+ " Tools:**")
            (build_system_prompt self) = true.
Proof.
  intros infos.
  destruct (groups_items self) as (Hnd & Hitems & Hall).
  fold infos in Hitems, Hall.
  set (groups := get_tools_by_category self) in *.
  set (sorted_groups := Py.sorted_by fst groups).
  assert (Hperm : Permutation sorted_groups groups) by apply sorted_by_perm.
  assert (Hsections :
            map (fun '(c, l) => tool_section c l) sorted_groups
            = map (fun c => tool_section c (List.filter (in_category c) infos))
                (map fst sorted_groups)).
  { rewrite map_map. apply map_ext_in. intros [c l] Hin.
    destruct (Hitems c l) as [-> _]; [|reflexivity].
    apply list_elem_of_In. rewrite <- Hperm. apply list_elem_of_In. exact Hin. }
  split.
  - exists (map fst sorted_groups). split; [|split; [|split]].
    + pose proof (sorted_by_sorted fst groups) as Hs. fold sorted_groups in Hs.
      clear -Hs. induction Hs as [|x l Hl IH Hx]; simpl; constructor.
      * exact IH.
      * destruct Hx; simpl; constructor. assumption.
    + unfold Py.dict_keys in Hnd. rewrite Hperm. exact Hnd.
    + intros c. split.
      * intros Hc. apply in_map_iff in Hc as ([c' l] & <- & Hin).
        assert (In (c', l) groups) as Hg
          by (apply list_elem_of_In; rewrite <- Hperm;
              apply list_elem_of_In; exact Hin).
        destruct (Hitems c' l Hg) as [Hl Hne]. subst l.
        destruct (List.filter (in_category c') infos) as [|info l] eqn:E;
          [congruence|].
        assert (In info (List.filter (in_category c') infos))
          by (rewrite E; left; reflexivity).
        apply filter_In in H as [H1 H2]. apply String.eqb_eq in H2.
        exists info. split; assumption.
      * intros (info & Hin & <-). apply Hall in Hin.
        apply in_map_iff. exists (category info, List.filter (in_category (category info)) infos).
        split; [reflexivity|].
        apply list_elem_of_In. rewrite Hperm. apply list_elem_of_In. exact Hin.
    + unfold tool_overview. fold groups sorted_groups.
      rewrite Hsections. reflexivity.
  - intros info Hin.
    set (c := category info).
    set (l := List.filter (in_category c) infos).
    assert (Hinl : In info l)
      by (apply filter_In; split; [exact Hin|apply String.eqb_refl]).
    assert (Hsec : In (tool_section c l)
                      (map (fun '(c, l) => tool_section c l) sorted_groups)).
    { apply in_map_iff. exists (c, l). split; [reflexivity|].
      apply list_elem_of_In. rewrite Hperm. apply list_elem_of_In.
      apply Hall. exact Hin. }
    unfold build_system_prompt, tool_overview. fold groups sorted_groups.
    split.
    + apply contains_app_r, contains_app_l.
      apply (contains_join _ _ (tool_section c l)); [exact Hsec|].
      unfold tool_section. do 4 apply contains_app_r.
      apply (contains_join _ _
               ("  - " +:+ name info +:+ ": " +:+ description info)).
      * apply (in_map (fun tool_info =>
                 "  - " +:+ name tool_info +:+ ": " +:+ description tool_info)).
        exact Hinl.
      * apply contains_self.
    + apply contains_app_r, contains_app_l.
      apply (contains_join _ _ (tool_section c l)); [exact Hsec|].
      unfold tool_section. cbv zeta.
      match goal with
      | |- Py.contains (?a +:+ ?b +:+ ?c) (?a +:+ ?b +:+ ?c +:+ ?rest) = true =>
          replace (a +:+ b +:+ c +:+ rest) with ((a +:+ b +:+ c) +:+ rest)
            by (rewrite !string_app_assoc; reflexivity)
      end.
      apply contains_app_l, contains_self.
Qed.

Lemma system_prompt_lists_every_tool_witness :
  Py.contains "  - save_note: save_note()"
    (build_system_prompt (register_all Examples.overwriting)) = true.
Proof.
  refine (proj1 (proj2 (system_prompt_lists_every_tool
                          (register_all Examples.overwriting))
                   {| name := "save_note";
                      function := Examples.constant_tool "new" (Py.VStr "new");
                      description := "save_note()"; category := "storage";
                      schema := _auto_generate_schema
                                  (Examples.constant_tool "new" (Py.VStr "new")) |}
                   _)).
  left. reflexivity.
Defined.

End PromptFacts.

(** ** The LLM client *)

Section ClientFacts.
Import Exceptions Llm Conversation Tools Client.

Variable config : Config.
Variable post : Payload -> transport_result.

(** [OllamaClient.chat], lines 50-122, the failures: whatever the transport
    or the answer does, the exception that leaves [chat] is an [LLMError];
    it is an [LLMConnectionError] exactly for a connection error of the
    transport, a connect timeout included; an [LLMTimeoutError], with the
    configured timeout in its text, exactly for a timeout that is no
    connection error; and an [LLMResponseError] for everything else. *)
Theorem chat_raises_llm_errors_only (messages : list context_message)
    (tools : option (list ToolDef)) (e : exn) :
  chat config post messages tools = Raise e ->
  isinstance e LLMError = true
  /\ (cls e = LLMConnectionError
      <-> exists kind text,
            post (payload_of config messages tools) = Failed kind text
            /\ is_connection_error kind = true)
  /\ (cls e = LLMTimeoutError
      <-> exists text,
            post (payload_of config messages tools) = Failed ReadTimeout text)
  /\ (cls e = LLMTimeoutError ->
      e = mkLLMTimeoutError (timeout config)
      /\ Py.contains (pretty (timeout config)) (msg e) = true)
  /\ (cls e <> LLMConnectionError -> cls e <> LLMTimeoutError ->
      cls e = LLMResponseError).
Proof.
  unfold chat, chat_try.
  destruct (post (payload_of config messages tools))
    as [kind text|[message_data|] elapsed] eqn:Hpost.
  - destruct kind; cbn; intros [= <-]; cbn;
      (split; [reflexivity|]);
      (split; [split; [try discriminate; intros _; eauto
                      |intros (k & t & [= <- <-] & Hk); try discriminate;
                       reflexivity]|]);
      (split; [split; [try discriminate; intros _; eauto
                      |intros (t & [=]); reflexivity]|]);
      (split; [try discriminate|try congruence]).
    intros _. split; [reflexivity|].
    change (Py.contains (pretty (timeout config))
              ("LLM request timed out after "
               +:+ pretty (timeout config) +:+ " seconds") = true).
    apply contains_app_r, contains_prefix.
    exact (prefix_app (pretty (timeout config)) " seconds").
  - destruct (md_content message_data); [discriminate|].
    intros [= <-]. cbn. split; [reflexivity|].
    split; [split; [discriminate|intros (k & t & [=] & _)]|].
    split; [split; [discriminate|intros (t & [=])]|].
    split; [discriminate|reflexivity].
  - intros [= <-]. cbn. split; [reflexivity|].
    split; [split; [discriminate|intros (k & t & [=] & _)]|].
    split; [split; [discriminate|intros (t & [=])]|].
    split; [discriminate|reflexivity].
Qed.

(** [OllamaClient.chat], lines 50-107, the request and the answer: the body
    names the configured model, carries the messages, asks for no stream,
    and has a tools entry exactly for a schema that is not empty; [chat]
    returns exactly when the decoded answer has a message with a content,
    and then with that content, the tool calls and tool name as they came,
    and "assistant" for a missing role. *)
Theorem chat_request_and_answer (messages : list context_message)
    (tools : option (list ToolDef)) :
  let payload := payload_of config messages tools in
  p_model payload = model config
  /\ p_messages payload = messages
  /\ p_stream payload = false
  /\ (p_tools payload = None <-> tools = None \/ tools = Some [])
  /\ (forall schema, p_tools payload = Some schema -> tools = Some schema)
  /\ forall response,
       chat config post messages tools = Ok response
       <-> exists message_data elapsed content,
             post payload = Decoded (Some message_data) elapsed
             /\ md_content message_data = Some content
             /\ response
                = {| Llm.message :=
                       {| cm_role := default "assistant" (md_role message_data);
                          cm_content := content;
                          cm_tool_calls := md_tool_calls message_data;
                          cm_tool_name := md_tool_name message_data |};
                     timing := elapsed;
                     Llm.model := model config |}.
Proof.
  intros payload. subst payload.
  split; [reflexivity|]. split; [reflexivity|]. split; [reflexivity|].
  split; [|split].
  - destruct tools as [[|t ts]|]; cbn; split; intros H;
      try discriminate; try tauto; try (destruct H; discriminate); auto.
  - intros schema. destruct tools as [[|t ts]|]; cbn; congruence.
  - intros response. unfold chat, chat_try.
    destruct (post (payload_of config messages tools))
      as [kind text|[message_data|] elapsed].
    + split; [|intros (m & el & c & [=] & _)].
      destruct (is_connection_error kind); [discriminate|].
      destruct (is_timeout kind); [discriminate|].
      destruct kind; discriminate.
    + destruct (md_content message_data) as [content|] eqn:Hc.
      * split.
        -- intros [= <-]. exists message_data, elapsed, content.
           repeat split. exact Hc.
        -- intros (m & el & c & [= <- <-] & Hc' & ->).
           rewrite Hc in Hc'. injection Hc' as <-. reflexivity.
      * split; [discriminate|].
        intros (m & el & c & [= <- <-] & Hc' & _). congruence.
    + split; [discriminate|]. intros (m & el & c & [=] & _).
Qed.

End ClientFacts.

Section ClientExamples.
Import Exceptions Llm Conversation Tools Client.

Lemma chat_raises_llm_errors_only_witness :
  isinstance (mkLLMTimeoutError 30) LLMError = true.
Proof.
  refine (proj1 (chat_raises_llm_errors_only Examples.default_config
                   (fun _ => Failed ReadTimeout "Read timed out.")
                   [] None (mkLLMTimeoutError 30) eq_refl)).
Defined.

Lemma chat_request_and_answer_witness :
  chat Examples.default_config
    (fun _ => Decoded (Some {| md_role := None; md_content := Some "hi";
                               md_tool_calls := None; md_tool_name := None |})
                      0)
    [] None
  = Ok (Examples.reply "hi" None) .
Proof.
  apply (proj2 (proj2 (proj2 (proj2 (proj2
           (chat_request_and_answer Examples.default_config _ [] None)))))).
  eexists _, _, _. split; [reflexivity|]. split; reflexivity.
Defined.

End ClientExamples.

(** ** More on the turn *)

Section TurnFacts.
Import Exceptions Llm Conversation Tools Agent.

Variable env : Env.



(** [_execute_tools], lines 229-234 and 259-267, a request without a name
    (no [function], no [name], or an empty name): the registry is not
    asked, and the result is a tool entry under "unknown". *)
Theorem nameless_request_becomes_result (c : ToolCall) (s : State) :
  named_request c = None ->
  execute_one env c s
  = (Ok (tool_result "Tool execution failed: Missing tool name in tool call"
           "unknown"), s).
Proof.
  unfold named_request, execute_one, try_except.
  destruct (tool_name_of c) as [n|] eqn:Hname.
  - destruct (Py.truthy n) eqn:Htruthy; [discriminate|]. intros _.
    unfold raise. cbn [List.find fst]. rewrite isinstance_Exception.
    unfold ret, or_unknown. rewrite Htruthy. reflexivity.
  - intros _. unfold raise. cbn [List.find fst].
    rewrite isinstance_Exception. reflexivity.
Qed.

Lemma execute_one_run (c : ToolCall) (s : State) :
  execute_one env c s = (Ok (result_of env c), after_request s c).
Proof.
  unfold result_of, after_request, named_request.
  destruct (tool_name_of c) as [n|] eqn:Hname.
  - destruct (Py.truthy n) eqn:Htruthy.
    + destruct (Py.dict_get n (_tools (registry env))) as [f|] eqn:Hget.
      * rewrite (execute_one_found env c n f) by assumption.
        destruct (f_call f (arguments_of c)); reflexivity.
      * unfold execute_one, try_except, bind, registry_execute_tool,
          execute_tool.
        rewrite Hname, Htruthy, Hget. cbn [List.find fst].
        change (isinstance (mkToolNotFoundError n) ToolNotFoundError) with true.
        cbv iota. unfold raise. cbn [List.find fst].
        rewrite isinstance_Exception. unfold ret, or_unknown.
        rewrite Htruthy. reflexivity.
    + unfold execute_one, try_except. rewrite Hname, Htruthy.
      unfold raise. cbn [List.find fst]. rewrite isinstance_Exception.
      unfold ret, or_unknown. rewrite Htruthy. reflexivity.
  - unfold execute_one, try_except. rewrite Hname.
    unfold raise. cbn [List.find fst]. rewrite isinstance_Exception.
    reflexivity.
Qed.

Lemma execute_tools_run (calls : list ToolCall) (s : State) :
  _execute_tools env calls s
  = (Ok (map (result_of env) calls), foldl after_request s calls).
Proof.
  revert s. induction calls as [|c calls IH]; intros s; [reflexivity|].
  cbn [_execute_tools map foldl]. unfold bind.
  rewrite execute_one_run, IH. reflexivity.
Qed.

Lemma result_of_spec (c : ToolCall) : result_for c (result_of env c).
Proof.
  unfold result_for, result_of, named_request, or_unknown.
  destruct (tool_name_of c) as [n|]; [|repeat split].
  destruct (Py.truthy n); [|repeat split].
  destruct (Py.dict_get n (_tools (registry env))) as [f|]; [|repeat split].
  destruct (f_call f (arguments_of c)); repeat split.
Qed.

Lemma after_requests_frame (calls : list ToolCall) (s : State) :
  history (foldl after_request s calls) = history s
  /\ clock (foldl after_request s calls) = clock s
  /\ chat_calls (foldl after_request s calls) = chat_calls s
  /\ appended (foldl after_request s calls) = appended s
  /\ executed (foldl after_request s calls)
     = executed s ++ omap named_request calls.
Proof.
  revert s. induction calls as [|c calls IH]; intros s.
  - cbn. rewrite app_nil_r. repeat split.
  - cbn [foldl omap list_omap].
    destruct (IH (after_request s c)) as (H1 & H2 & H3 & H4 & H5).
    rewrite H1, H2, H3, H4, H5. unfold after_request.
    destruct (named_request c) as [[n a]|]; cbn; rewrite <- ?app_assoc;
      repeat split.
Qed.


Lemma logged_refl (s : State) : logged env [] s s.
Proof.
  unfold logged. rewrite app_nil_r. cbn. split; [reflexivity|].
  split; [reflexivity|lia].
Qed.




Lemma logging_raise {A} (e : exn) : logging env (@raise A e).
Proof. intros s. exists []. split; [apply logged_refl|constructor]. Qed.











Lemma add_tool_results_run (tool_results context_messages : list context_message)
    (s : State) :
  exists s',
    add_tool_results env tool_results context_messages s
    = (Ok (context_messages ++ tool_results), s')
    /\ chat_calls s' = chat_calls s.
Proof.
  revert context_messages s.
  induction tool_results as [|r rs IH]; intros ctx s; cbn [add_tool_results].
  - exists s. rewrite app_nil_r. split; reflexivity.
  - unfold bind, conversation_add_message.
    destruct (IH (ctx ++ [r])
                (with_message env "tool" (c_content r) None (c_tool_name r) s))
      as (s' & -> & Hc).
    exists s'. rewrite <- app_assoc. split; [reflexivity|exact Hc].
Qed.

Lemma handle_tool_calls_continues (depth : nat) (response : LLMResponse)
    (context_messages : list context_message) (tools_schema : list ToolDef)
    (s : State) :
  exists rest,
    chat_calls (snd (_handle_tool_calls env depth response context_messages
                       tools_schema s))
    = chat_calls s ++ rest
    /\ continues context_messages rest.
Proof.
  revert response context_messages s.
  induction depth as [|depth IH]; intros response ctx s; cbn [_handle_tool_calls].
  - exists []. rewrite app_nil_r. split; [reflexivity|exact I].
  - unfold bind at 1. unfold conversation_add_message at 1.
    unfold bind at 1. rewrite execute_tools_run.
    set (calls := default [] (cm_tool_calls (Llm.message response))).
    set (s1 := foldl after_request _ calls).
    assert (Hs1 : chat_calls s1 = chat_calls s).
    { subst s1. destruct (after_requests_frame calls
                            (with_message env "assistant"
                               (cm_content (Llm.message response))
                               (cm_tool_calls (Llm.message response)) None s))
        as (_ & _ & -> & _). reflexivity. }
    unfold bind at 1.
    destruct (add_tool_results_run (map (result_of env) calls) ctx s1)
      as (s2 & -> & Hs2).
    assert (Htool : Forall (fun r => c_role r = "tool")
                      (map (result_of env) calls)).
    { apply Forall_forall. intros r Hr.
      apply list_elem_of_In, in_map_iff in Hr as (c & <- & _).
      apply result_of_spec. }
    unfold bind at 1. unfold llm_chat at 1.
    set (ctx' := ctx ++ map (result_of env) calls).
    set (s3 := with_chat_call ctx' None s2).
    assert (Hs3 : chat_calls s3 = chat_calls s ++ [(ctx', None)])
      by (subst s3; cbn; rewrite Hs2, Hs1; reflexivity).
    destruct (chat env (length (chat_calls s2)) ctx' None) as [final|e].
    + destruct (has_tool_calls final).
      * destruct (IH final ctx' s3) as (rest & -> & Hrest).
        exists ((ctx', None) :: rest). rewrite Hs3, <- app_assoc.
        split; [reflexivity|]. cbn. split; [reflexivity|]. split; [eauto|].
        exact Hrest.
      * cbn. exists [(ctx', None)]. split; [exact Hs3|].
        cbn. split; [reflexivity|]. split; [eauto|exact I].
    + cbn. exists [(ctx', None)]. split; [exact Hs3|].
      cbn. split; [reflexivity|]. split; [eauto|exact I].
Qed.

(** [_handle_tool_calls], lines 200-216: every request of a turn after the
    first has the context of the request before it plus the tool entries of
    the batch just run, and nothing else: the assistant message that asked
    for the tools is not part of it. *)
Theorem continuation_contexts_add_tool_results_only (user_input : string)
    (s : State) :
  exists rest,
    let first_context :=
      get_context_messages (max_history env)
        (build_system_prompt env (registry env))
        (history (with_message env "user" user_input None None s)) in
    chat_calls (snd (process_message env user_input s))
    = chat_calls s
      ++ (first_context, Some (get_tools_schema (registry env))) :: rest
    /\ continues first_context rest.
Proof.
  set (s0 := with_message env "user" user_input None None s).
  set (ctx := get_context_messages (max_history env)
                (build_system_prompt env (registry env)) (history s0)).
  assert (Htry : exists rest,
            chat_calls (snd (process_message_try env user_input s))
            = chat_calls s ++ (ctx, Some (get_tools_schema (registry env))) :: rest
            /\ continues ctx rest).
  { unfold process_message_try, bind, conversation_add_message, get_state,
      llm_chat. fold s0. fold ctx.
    set (s1 := with_chat_call ctx (Some (get_tools_schema (registry env))) s0).
    destruct (chat env _ ctx _) as [response|e].
    - destruct (has_tool_calls response).
      + destruct (handle_tool_calls_continues (recursion_limit env) response
                    ctx (get_tools_schema (registry env)) s1)
          as (rest & -> & Hrest).
        exists rest. cbn. rewrite <- app_assoc. split; [reflexivity|exact Hrest].
      + exists []. split; [reflexivity|exact I].
    - exists []. split; [reflexivity|exact I]. }
  destruct Htry as (rest & Hcalls & Hrest). exists rest. cbv zeta.
  split; [|exact Hrest].
  rewrite process_message_unfold.
  destruct (process_message_try env user_input s) as [[text|e] s'];
    cbn [snd] in *; exact Hcalls.
Qed.

End TurnFacts.

Section TurnFactsExamples.
Import Exceptions Llm Conversation Tools Agent.



Lemma nameless_request_becomes_result_witness :
  execute_one Examples.chain_env Examples.nameless Examples.empty_state
  = (Ok (tool_result "Tool execution failed: Missing tool name in tool call"
           "unknown"), Examples.empty_state).
Proof.
  exact (nameless_request_becomes_result Examples.chain_env Examples.nameless
           Examples.empty_state eq_refl).
Defined.

End TurnFactsExamples.

(** ** The legacy views of the registry *)

Section LegacyFacts.
Import Exceptions Tools.

Lemma named_items (d : Py.dict ToolInfo) :
  map name (Py.dict_values d) = Py.dict_keys d ->
  map (fun '(k, v) => (k, description v)) d
  = map (fun info => (name info, description info)) (Py.dict_values d).
Proof.
  unfold Py.dict_values, Py.dict_keys.
  induction d as [|[k v] d IH]; simpl; [reflexivity|].
  intros [= -> H]. rewrite IH by exact H. reflexivity.
Qed.

Lemma dict_get_map_values {V W} (f : V -> W) (k : string) (d : Py.dict V) :
  Py.dict_get k (map (fun '(k, v) => (k, f v)) d) = f <$> Py.dict_get k d.
Proof.
  induction d as [|[k' v] d IH]; simpl; [reflexivity|].
  destruct (String.eqb k k'); [reflexivity|exact IH].
Qed.

(** [get_tool_descriptions], lines 173-175 and 260-263: the legacy
    description table of a registry has the names of [list_tools] in the same
    order, and pairs every name with the description that
    [get_tools_schema] offers to the LLM under that name. *)
Theorem tool_descriptions_agree_with_schema (rs : list Registration) :
  let self := register_all rs in
  get_tool_descriptions self
  = map (fun tool_def => (td_name tool_def, td_description tool_def))
      (get_tools_schema self)
  /\ Py.dict_keys (get_tool_descriptions self) = list_tools self.
Proof.
  intros self.
  destruct (register_all_invariant rs) as (Hkeys & Hnames & _).
  fold self in Hkeys, Hnames.
  assert (Hd : get_tool_descriptions self
               = map (fun '(k, v) => (k, description v)) (_tool_info self)).
  { unfold get_tool_descriptions.
    rewrite (dict_comprehension description (_tool_info self) []);
      [reflexivity|]. apply NoDup_tool_info_keys. }
  split.
  - rewrite Hd, named_items by exact Hnames.
    unfold get_tools_schema. rewrite map_map. reflexivity.
  - rewrite Hd. unfold list_tools. rewrite Hkeys.
    unfold Py.dict_keys. rewrite map_map. apply map_ext. intros [k v].
    reflexivity.
Qed.

(** The decorator [tool], lines 237-252: the function comes back as it
    was; it is then the tool found under its own [__name__]; every other
    name resolves as before; and the registry stays consistent. *)
Theorem tool_decorator_registers_under_own_name (f : Function)
    (description category : option string) (schema : option Schema)
    (registry : ToolRegistry) :
  let decorated := tool f description category schema registry in
  fst decorated = f
  /\ get_tool (snd decorated) (f_name f) = Ok f
  /\ (forall n, n <> f_name f ->
        get_tool (snd decorated) n = get_tool registry n)
  /\ (registry_invariant registry -> registry_invariant (snd decorated)).
Proof.
  cbv zeta. unfold tool. cbn [fst snd]. split; [reflexivity|].
  split; [|split].
  - unfold get_tool, register_tool. cbn [_tools].
    rewrite dict_get_set_eq. reflexivity.
  - intros n Hn. unfold get_tool, register_tool. cbn [_tools].
    rewrite dict_get_set_ne by congruence. reflexivity.
  - intros Hinv.
    apply (register_invariant registry
             {| r_name := f_name f; r_function := f;
                r_description := description; r_category := category;
                r_schema := schema |} Hinv).
Qed.

Lemma categorized_lookup (self : ToolRegistry) (c : string) :
  Py.dict_get c (get_categorized_tools self)
  = match List.filter (in_category c) (Py.dict_values (_tool_info self)) with
    | [] => None
    | l => Some (map (fun t => (name t, description t)) l)
    end.
Proof.
  destruct (groups_items self) as (Hnd & _ & _).
  unfold get_categorized_tools.
  rewrite (dict_comprehension
             (map (fun t : ToolInfo => (name t, description t)))
             (get_tools_by_category self) []) by exact Hnd.
  cbn [app]. rewrite dict_get_map_values.
  unfold get_tools_by_category.
  change (foldl _ [] (Py.dict_values (_tool_info self)))
    with (foldl group_step [] (Py.dict_values (_tool_info self))).
  rewrite group_fold. simpl.
  destruct (List.filter _ _); reflexivity.
Qed.

Lemma strategy_line_spec (self : ToolRegistry) (c lead : string) :
  strategy_line (get_categorized_tools self) c lead
  = match List.filter (in_category c) (Py.dict_values (_tool_info self)) with
    | [] => []
    | l => [lead +:+ Py.join ", " (map name l)]
    end.
Proof.
  unfold strategy_line. rewrite categorized_lookup.
  destruct (List.filter _ _); [reflexivity|].
  rewrite map_map. reflexivity.
Qed.

Lemma contains_listed (lead : string) (info : ToolInfo) (l : list ToolInfo) :
  In info l ->
  Py.contains (name info) (lead +:+ Py.join ", " (map name l)) = true.
Proof.
  intros Hin. apply contains_app_r.
  apply (contains_join _ _ (name info)); [|apply contains_self].
  apply in_map. exact Hin.
Qed.

Lemma filter_category_cons (info : ToolInfo) (infos : list ToolInfo) :
  In info infos ->
  exists x l',
    List.filter (in_category (category info)) infos = x :: l'
    /\ In info (x :: l').
Proof.
  intros Hin.
  assert (Hinl : In info (List.filter (in_category (category info)) infos))
    by (apply filter_In; split; [exact Hin|apply String.eqb_refl]).
  destruct (List.filter (in_category (category info)) infos) as [|x l'];
    [destruct Hinl|eauto].
Qed.

Ltac pick_part :=
  solve [ left; left; reflexivity | left; reflexivity | right; pick_part ].

(** [generate_tool_selection_strategy], lines 284-316: the name of every
    tool of the categories generation, storage, combined, search and
    communication is in the text; with no tool in these five categories the
    text is empty, whatever else is registered. *)
Theorem selection_strategy_covers_five_categories (self : ToolRegistry) :
  let infos := Py.dict_values (_tool_info self) in
  (forall info, In info infos -> In (category info) strategy_categories ->
     Py.contains (name info) (generate_tool_selection_strategy self) = true)
  /\ ((forall info, In info infos -> ~ In (category info) strategy_categories) ->
      generate_tool_selection_strategy self = "").
Proof.
  intros infos. split.
  - intros info Hin Hcat.
    destruct (filter_category_cons info infos Hin) as (x & l' & Hf & Hinl).
    unfold generate_tool_selection_strategy. cbv zeta.
    rewrite !strategy_line_spec, categorized_lookup. fold infos.
    unfold strategy_categories in Hcat. cbn [In] in Hcat.
    destruct Hcat as [E|[E|[E|[E|[E|[]]]]]]; rewrite E, Hf; cbv iota;
      rewrite ?map_map;
      (eapply contains_join;
       [rewrite !in_app_iff; cbn [In]; pick_part
       |apply contains_listed; exact Hinl]).
  - intros Hnone.
    assert (Hempty : forall c, In c strategy_categories ->
              List.filter (in_category c) infos = []).
    { intros c Hc. destruct (List.filter (in_category c) infos) as [|x l] eqn:E;
        [reflexivity|].
      assert (In x (List.filter (in_category c) infos))
        by (rewrite E; left; reflexivity).
      apply filter_In in H as [Hx Hcx]. apply String.eqb_eq in Hcx.
      exfalso. apply (Hnone x Hx). rewrite Hcx. exact Hc. }
    unfold generate_tool_selection_strategy. cbv zeta.
    rewrite !strategy_line_spec, categorized_lookup. fold infos.
    rewrite !Hempty by (unfold strategy_categories; cbn [In]; tauto).
    reflexivity.
Qed.

End LegacyFacts.

Section LegacyExamples.
Import Exceptions Tools.

Lemma tool_decorator_registers_under_own_name_witness :
  get_tool (snd (tool Examples.f_a_b None None None
                   (register_all Examples.overwriting))) "save_note"
  = Ok (Examples.constant_tool "new" (Py.VStr "new")).
Proof.
  rewrite (proj1 (proj2 (proj2
             (tool_decorator_registers_under_own_name Examples.f_a_b
                None None None (register_all Examples.overwriting))))
             "save_note") by discriminate.
  reflexivity.
Defined.

Lemma selection_strategy_covers_five_categories_witness :
  Py.contains "search_note"
    (generate_tool_selection_strategy (register_all Examples.overwriting))
  = true.
Proof.
  refine (proj1 (selection_strategy_covers_five_categories
                   (register_all Examples.overwriting))
            {| name := "search_note";
               function := Examples.constant_tool "find" (Py.VStr "found");
               description := "search_note()"; category := "search";
               schema := _auto_generate_schema
                           (Examples.constant_tool "find" (Py.VStr "found")) |}
            _ _).
  - right. left. reflexivity.
  - unfold strategy_categories. cbn [category In]. tauto.
Defined.

End LegacyExamples.

(** ** Loading and clearing the log *)

Section LoadFacts.
Import Conversation Heap.

(** [load_history] and [clear_history], lines 271-273 and 123-125 with
    279-281: the agent's log becomes a new list with the slots of the given
    one, so it reads as the given list; list operations on the given list
    afterwards do not reach the log; and clearing the log empties it in
    place and leaves the given list as it was. *)
Theorem load_history_copies_and_clear_is_local (st : Store) (self : Manager)
    (loaded : ref) (items : list ref) :
  st !! loaded = Some (OList items) ->
  exists self' st',
    load_history self loaded st = Some (self', st')
    /\ history self' <> loaded
    /\ read_list st' (history self') = read_list st loaded
    /\ (forall ops st'',
          mutate_all loaded ops st' = Some st'' ->
          st'' !! history self' = Some (OList items))
    /\ exists st'',
         clear_history self' st' = Some st''
         /\ read_list st'' (history self') = Some []
         /\ st'' !! loaded = Some (OList items)
         /\ read_list st'' loaded = read_list st loaded.
Proof.
  intros Hlist. unfold load_history, list_copy, alloc. rewrite Hlist.
  set (l := fresh (dom st)).
  assert (Hfresh : st !! l = None) by apply fresh_not_stored.
  assert (Hne : l <> loaded) by congruence.
  assert (Hentry : forall o r,
            read_entry (<[l := OList o]> st) r = read_entry st r).
  { intros o r. unfold read_entry. destruct (decide (l = r)) as [<-|Hr].
    - rewrite lookup_insert_eq, Hfresh. reflexivity.
    - rewrite lookup_insert_ne by exact Hr. reflexivity. }
  exists {| history := l |}, (<[l := OList items]> st). cbn [history].
  split; [reflexivity|]. split; [exact Hne|]. split.
  { unfold read_list. rewrite lookup_insert_eq, Hlist.
    apply read_entries_ext. apply Hentry. }
  split.
  { intros ops st'' Hops. apply mutate_all_frame in Hops as [Hframe _].
    rewrite Hframe by exact Hne. apply lookup_insert_eq. }
  unfold clear_history, mutate_list. cbn [history apply_list_op].
  rewrite lookup_insert_eq. eexists. split; [reflexivity|].
  rewrite insert_insert_eq. split.
  { unfold read_list. rewrite lookup_insert_eq. reflexivity. }
  split.
  { rewrite lookup_insert_ne by exact Hne. exact Hlist. }
  unfold read_list. rewrite lookup_insert_ne by exact Hne. rewrite Hlist.
  apply read_entries_ext. apply Hentry.
Qed.

Lemma load_history_copies_and_clear_is_local_witness :
  exists self' st',
    load_history Examples.manager 2%nat Examples.two_messages = Some (self', st')
    /\ history self' <> 2%nat
    /\ read_list st' (history self')
       = Some [Examples.entry "user" "hello"; Examples.entry "assistant" "hi"].
Proof.
  destruct (load_history_copies_and_clear_is_local Examples.two_messages
              Examples.manager 2%nat [0%nat; 1%nat] eq_refl)
    as (self' & st' & Hload & Hne & Hread & _).
  exists self', st'. split; [exact Hload|]. split; [exact Hne|].
  rewrite Hread. reflexivity.
Defined.

End LoadFacts.

(** ** The history optimizer *)

Section OptimizerFacts.
Import Conversation Performance.

Lemma filter_system_of_other (l : list message) :
  List.filter is_system (List.filter (fun m => negb (is_system m)) l) = [].
Proof.
  induction l as [|x l IH]; simpl; [reflexivity|].
  destruct (is_system x) eqn:E; simpl; rewrite ?E; exact IH.
Qed.

Lemma filter_other_idem (l : list message) :
  List.filter (fun m => negb (is_system m))
    (List.filter (fun m => negb (is_system m)) l)
  = List.filter (fun m => negb (is_system m)) l.
Proof.
  induction l as [|x l IH]; simpl; [reflexivity|].
  destruct (is_system x) eqn:E; simpl; rewrite ?E, IH; reflexivity.
Qed.

Lemma filter_drop_all {A} (f : A -> bool) (n : nat) (l : list A) :
  Forall (fun x => f x = true) l -> List.filter f (drop n l) = drop n l.
Proof.
  intros H. apply forallb_filter_id. apply forallb_forall.
  intros x Hx. rewrite Forall_forall in H. apply H.
  apply list_elem_of_In in Hx. eapply (subseteq_drop n l). exact Hx.
Qed.

Lemma filter_drop_none {A} (f : A -> bool) (n : nat) (l : list A) :
  Forall (fun x => f x = false) l -> List.filter f (drop n l) = [].
Proof.
  revert n. induction l as [|x l IH]; intros n H; [destruct n; reflexivity|].
  apply Forall_cons in H as [Hx Hl]. destruct n as [|n]; simpl.
  - rewrite Hx. apply (IH 0%nat Hl).
  - apply IH. exact Hl.
Qed.

Lemma others_all (l : list message) :
  Forall (fun m => negb (is_system m) = true)
    (List.filter (fun m => negb (is_system m)) l).
Proof.
  apply Forall_forall. intros x Hx. apply list_elem_of_In, filter_In in Hx.
  tauto.
Qed.

Lemma others_no_system (l : list message) :
  Forall (fun m => is_system m = false)
    (List.filter (fun m => negb (is_system m)) l).
Proof.
  eapply Forall_impl; [apply others_all|]. intros m. simpl.
  destruct (is_system m); [discriminate|reflexivity].
Qed.

(** [optimize_conversation_history], lines 147-160: a log within
    [max_size] comes back as it is; a longer one becomes its system
    entries followed by the last [max_size] of the others, every kept entry
    once; and optimizing twice is optimizing once. *)
Theorem optimize_history_keeps_each_entry_once (history : list message)
    (max_size : Z) :
  (0 < max_size)%Z ->
  let optimized := optimize_conversation_history history max_size in
  let system_msgs := List.filter is_system history in
  let other_msgs := List.filter (fun m => negb (is_system m)) history in
  ((Z.of_nat (length history) <= max_size)%Z -> optimized = history)
  /\ ((max_size < Z.of_nat (length history))%Z ->
      optimized = system_msgs ++ last_n (Z.to_nat max_size) other_msgs)
  /\ List.filter is_system optimized = system_msgs
  /\ List.filter (fun m => negb (is_system m)) optimized
     = last_n (Z.to_nat max_size) other_msgs
  /\ (length optimized <= length history)%nat
  /\ optimize_conversation_history optimized max_size = optimized.
Proof.
  intros Hpos. cbv zeta.
  set (other := fun m => negb (is_system m)).
  set (k := Z.to_nat max_size).
  assert (Hlong : (max_size < Z.of_nat (length history))%Z ->
            optimize_conversation_history history max_size
            = List.filter is_system history
              ++ last_n k (List.filter other history)).
  { intros H. unfold optimize_conversation_history.
    destruct (Z.leb_spec (Z.of_nat (length history)) max_size) as [?|_]; [lia|].
    rewrite slice_from_neg by exact Hpos. reflexivity. }
  assert (Hshort : (Z.of_nat (length history) <= max_size)%Z ->
            optimize_conversation_history history max_size = history).
  { intros H. unfold optimize_conversation_history.
    destruct (Z.leb_spec (Z.of_nat (length history)) max_size) as [_|?]; [|lia].
    reflexivity. }
  assert (Hwindow : (length (List.filter other history) <= k)%nat ->
            last_n k (List.filter other history) = List.filter other history).
  { intros H. unfold last_n.
    replace (length (List.filter other history) - k)%nat with 0%nat by lia.
    reflexivity. }
  assert (Hlen : (length (List.filter other history) <= length history)%nat)
    by apply List.filter_length_le.
  assert (Hparts : (length (List.filter is_system history)
                    + length (List.filter other history)
                    = length history)%nat).
  { clear. induction history as [|x l IH]; [reflexivity|]. simpl.
    unfold other at 1. destruct (is_system x); simpl; lia. }
  split; [exact Hshort|]. split; [exact Hlong|].
  destruct (Z.le_gt_cases (Z.of_nat (length history)) max_size) as [Hle|Hgt].
  - rewrite Hshort by exact Hle. rewrite Hshort by exact Hle.
    split; [reflexivity|]. split; [|split; [lia|reflexivity]].
    symmetry. apply Hwindow. lia.
  - rewrite Hlong by lia.
    set (recent := last_n k (List.filter other history)).
    assert (Hrs : List.filter is_system recent = []).
    { apply filter_drop_none. apply others_no_system. }
    assert (Hro : List.filter other recent = recent).
    { apply filter_drop_all. apply others_all. }
    assert (Hsys : List.filter is_system
                     (List.filter is_system history ++ recent)
                   = List.filter is_system history).
    { rewrite List.filter_app, filter_system_idem, Hrs, app_nil_r.
      reflexivity. }
    assert (Hoth : List.filter other
                     (List.filter is_system history ++ recent)
                   = recent).
    { rewrite List.filter_app. unfold other at 1.
      rewrite filter_other_of_system. exact Hro. }
    assert (Hrecent : (length recent <= k)%nat
                      /\ (length recent <= length (List.filter other history))%nat).
    { subst recent. unfold last_n. rewrite length_drop. lia. }
    split; [exact Hsys|]. split; [exact Hoth|]. split.
    { rewrite length_app. lia. }
    unfold optimize_conversation_history.
    destruct (Z.leb_spec
                (Z.of_nat (length (List.filter is_system history ++ recent)))
                max_size) as [_|_]; [reflexivity|].
    fold other. rewrite Hsys, Hoth, slice_from_neg by exact Hpos. fold k.
    f_equal. unfold last_n.
    replace (length recent - k)%nat with 0%nat by lia. reflexivity.
Qed.

End OptimizerFacts.

Section OptimizerExamples.
Import Conversation Performance.

Lemma optimize_history_keeps_each_entry_once_witness :
  optimize_conversation_history Examples.mixed_history 2
  = [ Examples.entry "system" "boot"; Examples.entry "error" "LLM Error: down";
      {| role := "tool"; content := "42"; timestamp := "";
         tool_calls := None; tool_name := Some "add_numbers" |} ].
Proof.
  rewrite (proj1 (proj2 (optimize_history_keeps_each_entry_once
                           Examples.mixed_history 2 eq_refl)))
    by (vm_compute; reflexivity).
  reflexivity.
Defined.

End OptimizerExamples.
